(** * PremiScale autoscaler: configuration schema, hypervisor connection
      and daemon wiring

    A shallow embedding of
      - [premiscale/config/v1alpha1.py]  (module [V1alpha1]),
      - [premiscale/hypervisor/_base.py] (module [Hypervisor]),
      - [premiscale/controller/daemon.py] (module [Daemon]),
    followed by the properties established about them.

    Python [str] values are modelled as Rocq [string]s (sequences of 8-bit
    characters, i.e. the UTF-8 encoding of the text), [int] as [Z], [None]-able
    values as [option], a [dict] keyed by strings as a [gmap string _]. *)

From Stdlib Require Import String Ascii ZArith List Lia DecimalString.
From stdpp Require Import base gmap strings list.

Open Scope string_scope.
Open Scope Z_scope.

Set Warnings "-register-all".

(* ===================================================================== *)
(** * The Python runtime as far as the three modules use it               *)
(* ===================================================================== *)

Module Py.

(** Exceptions that the modelled code raises or lets through, by class.
    An [AttributeError] keeps the class of the object and the name of the
    attribute it is about, not the wording of its message.  [SystemExit] is
    what [sys.exit(code)] raises; it derives from [BaseException], so no
    [except Exception] handler stops it. *)
Inductive exn : Type :=
| AttributeError (cls attr : string)
| KeyError (key : string)
| TypeError (what : string)
| ValueError (what : string)
| libvirtError (msg : string)
| SystemExit (code : Z).

(** [logging]: the records handed to the module-level logger. *)
Inductive level : Type := DEBUG | INFO | WARNING | ERROR.

Record log_record : Type := LogRecord { lvl : level; message : string }.

(** How a call ends: it returns a value or an exception propagates. *)
Inductive outcome (A : Type) : Type :=
| Return (a : A)
| Raise (e : exn).
Arguments Return {A} a.
Arguments Raise {A} e.

(** A computation over a mutable store [S]. *)
Definition M (S A : Type) : Type := S -> outcome A * S.

Definition ret {S A} (a : A) : M S A := fun s => (Return a, s).
Definition raise {S A} (e : exn) : M S A := fun s => (Raise e, s).
Definition bind {S A B} (c : M S A) (k : A -> M S B) : M S B :=
  fun s =>
    match c s with
    | (Return a, s') => k a s'
    | (Raise e, s') => (Raise e, s')
    end.

(** The outcome of a call that does not touch the store. *)
Definition lift {S A} (o : outcome A) : M S A := fun s => (o, s).

(** [str(n)] for an [int]. *)
Definition str_int (n : Z) : string := NilZero.string_of_int (Z.to_int n).

(** [str.lower()].  On the ASCII range this is [str.lower] itself; bytes
    above 127 (the UTF-8 encoding of other code points) are left alone.
    The only code points that [str.lower] maps to the letters [s] and [h]
    are [S], [s], [H] and [h], so a comparison of the result with ["ssh"]
    is decided as in Python. *)
Definition lower_ascii (c : ascii) : ascii :=
  let n := nat_of_ascii c in
  if (andb (Nat.leb 65 n) (Nat.leb n 90)) then ascii_of_nat (n + 32) else c.

Fixpoint lower (s : string) : string :=
  match s with
  | EmptyString => EmptyString
  | String c s' => String (lower_ascii c) (lower s')
  end.

(** An optional [str] inside an f-string: [None] renders as ["None"]. *)
Definition str_opt (u : option string) : string :=
  match u with
  | Some s => s
  | None => "None"
  end.

End Py.

(** The computations are written with stdpp's monad notation:
    [x ← c; k] and [c;; k]. *)
#[global] Instance M_ret {S} : MRet (Py.M S) := fun A a => Py.ret a.
#[global] Instance M_bind {S} : MBind (Py.M S) := fun A B k c => Py.bind c k.

(* ===================================================================== *)
(** * premiscale/hypervisor/_base.py                                      *)
(* ===================================================================== *)

Module Hypervisor.
Import Py.

(** [ipaddress.IPv4Address]: the 32-bit integer [_ip]; [str()] gives the
    dotted quad of its four big-endian bytes. *)
Record IPv4Address : Type := { _ip : Z }.

Definition octet (ip : Z) (i : Z) : Z := Z.land (Z.shiftr ip (8 * i)) 255.

Definition str_IPv4Address (a : IPv4Address) : string :=
  str_int (octet (_ip a) 3) +:+ "." +:+ str_int (octet (_ip a) 2) +:+ "."
  +:+ str_int (octet (_ip a) 1) +:+ "." +:+ str_int (octet (_ip a) 0).

(** [libvirt.virConnect]: an opaque handle.  The class defines neither
    [__bool__] nor [__len__], so every handle is truthy. *)
Record virConnect : Type := { conn_id : N }.

(** The instance attributes set in [__init__]. *)
Record Libvirt : Type := {
  name : string;
  address : IPv4Address;
  port : Z;
  protocol : string;
  hypervisor : string;
  user : option string;
  readonly : bool;
  resources : option (gmap string Z);
  _connection : option virConnect;
  connection_string : string
}.

Definition set_connection (self : Libvirt) (c : option virConnect) : Libvirt :=
  {| name := name self; address := address self; port := port self;
     protocol := protocol self; hypervisor := hypervisor self;
     user := user self; readonly := readonly self;
     resources := resources self;
     _connection := c;
     connection_string := connection_string self |}.

(** [Libvirt.__init__] (lines 37-53). *)
Definition __init__ (name : string) (address : IPv4Address) (port : Z)
    (protocol hypervisor : string) (user : option string) (readonly : bool)
    (resources : option (gmap string Z)) : Libvirt :=
  {| name := name; address := address; port := port; protocol := protocol;
     hypervisor := hypervisor; user := user; readonly := readonly;
     resources := resources;
     _connection := None;
     connection_string :=
       if String.eqb (lower protocol) "ssh" then
         hypervisor +:+ "+ssh://" +:+ str_opt user +:+ "@"
         +:+ str_IPv4Address address +:+ ":" +:+ str_int port +:+ "/system"
       else
         hypervisor +:+ "+tls://"
         +:+ str_IPv4Address address +:+ ":" +:+ str_int port +:+ "/system" |}.

(** What the process does that the outside can see: calls into the libvirt
    binding (recorded when they are made, whatever they answer) and records
    given to the logger, in the order they happen. *)
Inductive event : Type :=
| LvOpen (uri : string)
| LvOpenReadOnly (uri : string)
| VirConnectClose (h : virConnect)
| Log (r : log_record).

(** The store: the one [Libvirt] object (methods mutate it through [self])
    and the events so far, oldest first. *)
Record state : Type := { self_ : Libvirt; trace : list event }.

Definition emit (e : event) : M state unit :=
  fun s => (Return tt, {| self_ := self_ s; trace := (trace s ++ [e])%list |}).

Definition log_info (m : string) : M state unit := emit (Log (LogRecord INFO m)).
Definition log_error (m : string) : M state unit := emit (Log (LogRecord ERROR m)).

Definition get_self : M state Libvirt := fun s => (Return (self_ s), s).

Definition put_connection (c : virConnect) : M state unit :=
  fun s => (Return tt, {| self_ := set_connection (self_ s) (Some c);
                          trace := trace s |}).

(** [try: body except libvirtError as e: handler e].  Any other exception
    propagates. *)
Definition try_except_libvirtError {A} (body : M state A)
    (handler : string -> M state A) : M state A :=
  fun s =>
    match body s with
    | (Raise (libvirtError msg), s') => handler msg s'
    | r => r
    end.

Section Binding.
(** The libvirt binding: [lv.open] and [lv.openReadOnly] return a handle
    or raise, and [c.virConnectClose()] on a handle returns or raises (an
    [AttributeError] when the class of the handle has no method of that
    name). *)
Variable lv_open : string -> outcome virConnect.
Variable lv_openReadOnly : string -> outcome virConnect.
Variable virConnectClose : virConnect -> outcome unit.

Definition call_lv_open (uri : string) : M state virConnect :=
  (emit (LvOpen uri);; lift (lv_open uri)).

Definition call_lv_openReadOnly (uri : string) : M state virConnect :=
  (emit (LvOpenReadOnly uri);; lift (lv_openReadOnly uri)).

(** [Libvirt.open] (lines 61-75).  The value returned on success is
    [self]: the object as it is after the assignment. *)
Definition open : M state (option Libvirt) :=
  (self ← get_self;
   try_except_libvirtError
     (if readonly self then
        c ← call_lv_openReadOnly (connection_string self);
        put_connection c;;
        self' ← get_self;
        ret (Some self')
      else
        c ← call_lv_open (connection_string self);
        put_connection c;;
        log_info ("Connected to host at " +:+ connection_string self);;
        self' ← get_self;
        ret (Some self'))
     (fun e =>
        log_error ("Failed to connect to host at "
                   +:+ connection_string self +:+ ": " +:+ e);;
        ret None)).

(** [self._connection.virConnectClose()]: the call is recorded, then it
    returns or raises as the binding has it. *)
Definition call_virConnectClose (c : virConnect) : M state unit :=
  (emit (VirConnectClose c);; lift (virConnectClose c)).

(** [Libvirt.close] (lines 77-85).  When the call on the handle raises, the
    exception leaves [close] and nothing is logged. *)
Definition close : M state unit :=
  (self ← get_self;
   match _connection self with
   | Some c =>
       call_virConnectClose c;;
       log_info ("Closed connection to host at " +:+ connection_string self)
   | None =>
       log_error "No host connection to close, probably due to an error on connection open."
   end).

(** [__enter__] and [__exit__] (lines 55-59). *)
Definition __enter__ : M state (option Libvirt) := open.
Definition __exit__ : M state unit := close.

(** [with <the object> as conn: body conn].  [__exit__] runs when the
    body returns and when it raises; it returns [None], so an exception
    of the body propagates after it.  When [__enter__] itself raises,
    [__exit__] is not called. *)
Definition with_ {A} (body : option Libvirt -> M state A) : M state A :=
  fun s =>
    match __enter__ s with
    | (Raise e, s1) => (Raise e, s1)
    | (Return conn, s1) =>
        match body conn s1 with
        | (r, s2) =>
            match __exit__ s2 with
            | (Raise e, s3) => (Raise e, s3)
            | (Return _, s3) => (r, s3)
            end
        end
    end.

End Binding.

(** Number of times a trace calls [virConnectClose] on handle [h]. *)
Definition is_release (h : virConnect) (e : event) : bool :=
  match e with
  | VirConnectClose h' => N.eqb (conn_id h) (conn_id h')
  | _ => false
  end.

Definition releases (h : virConnect) (t : list event) : nat :=
  length (filter (fun e => is_release h e = true) t).

End Hypervisor.

(* ===================================================================== *)
(** * posixpath.expandvars                                                *)
(* ===================================================================== *)

Module OsPath.

(** [\w] under [re.ASCII]: a letter, a digit or the underscore. *)
Definition is_word (c : ascii) : bool :=
  let n := nat_of_ascii c in
  (Nat.leb 48 n && Nat.leb n 57) || (Nat.leb 65 n && Nat.leb n 90)
  || (Nat.leb 97 n && Nat.leb n 122) || Nat.eqb n 95.

Definition is_char (c : ascii) (d : string) : bool := String.eqb (String c "") d.

(** [expandvars] is [re.sub] of the pattern [\$(\w+|\{[^}]*\}?)] with a
    replacement function (CPython's current implementation; the older
    search loop differs only on a [${] that is never closed).  A scan for
    that pattern is outside a reference, just after a dollar sign, inside a
    [$name], or inside a [${name]. *)
Inductive scan : Type :=
| Plain
| Dollar
| Word (name : string)
| Brace (name : string).

Section Environ.
Variable environ : gmap string string.

(** [environ[name]], or on [KeyError] the matched text as it stands. *)
Definition lookup_or (name literal : string) : string :=
  match environ !! name with
  | Some value => value
  | None => literal
  end.

(** One pass over the path, left to right.  A substituted value is not
    scanned again, a dollar sign that starts no reference is copied, and
    a [${] without its closing brace runs to the end of the path and is
    returned as it stands. *)
Fixpoint expand_from (st : scan) (path : string) : string :=
  match path with
  | EmptyString =>
      match st with
      | Plain => ""
      | Dollar => "$"
      | Word name => lookup_or name ("$" +:+ name)
      | Brace name => "${" +:+ name
      end
  | String c rest =>
      let plain :=
        if is_char c "$" then expand_from Dollar rest
        else String c (expand_from Plain rest) in
      match st with
      | Plain => plain
      | Dollar =>
          if is_word c then expand_from (Word (String c "")) rest
          else if is_char c "{" then expand_from (Brace "") rest
          else "$" +:+ plain
      | Word name =>
          if is_word c then expand_from (Word (name +:+ String c "")) rest
          else lookup_or name ("$" +:+ name) +:+ plain
      | Brace name =>
          if is_char c "}" then
            lookup_or name ("${" +:+ name +:+ "}") +:+ expand_from Plain rest
          else expand_from (Brace (name +:+ String c "")) rest
      end
  end.

Definition expandvars (path : string) : string := expand_from Plain path.

End Environ.

End OsPath.

(* ===================================================================== *)
(** * premiscale/config/v1alpha1.py                                       *)
(* ===================================================================== *)

Module V1alpha1.
Import Py.

(** The store of this module: the records given to its logger. *)
Definition log := list log_record.

Definition log_error (m : string) : M log unit :=
  fun l => (Return tt, (l ++ [LogRecord ERROR m])%list).

(** [sys.exit(code)]. *)
Definition sys_exit {A} (code : Z) : M log A := raise (SystemExit code).

(** Each class is a module: the record of its attributes is [t], and
    [__init__] is the initialiser that [attrs.define] generates, which
    stores the arguments and then calls [__attrs_post_init__] when the
    class has one. *)

Module DatabaseCredentials.
Record t : Type := { username : string; password : string }.
End DatabaseCredentials.

Module Connection.
Record t : Type := {
  url : string;
  database : string;
  credentials : DatabaseCredentials.t
}.

Section Environ.
Variable environ : gmap string string.

(** [Connection.expand] (lines 49-56). *)
Definition expand (self : t) : M log t :=
  let self := {| url := OsPath.expandvars environ (url self);
                 database := database self;
                 credentials := credentials self |} in
  let self := {| url := url self;
                 database := OsPath.expandvars environ (database self);
                 credentials := credentials self |} in
  let self := {| url := url self;
                 database := database self;
                 credentials :=
                   {| DatabaseCredentials.username :=
                        OsPath.expandvars environ
                          (DatabaseCredentials.username (credentials self));
                      DatabaseCredentials.password :=
                        DatabaseCredentials.password (credentials self) |} |} in
  let self := {| url := url self;
                 database := database self;
                 credentials :=
                   {| DatabaseCredentials.username :=
                        DatabaseCredentials.username (credentials self);
                      DatabaseCredentials.password :=
                        OsPath.expandvars environ
                          (DatabaseCredentials.password (credentials self)) |} |} in
  ret self.

Definition __attrs_post_init__ (self : t) : M log t := expand self.

Definition __init__ (url database : string)
    (credentials : DatabaseCredentials.t) : M log t :=
  __attrs_post_init__
    {| url := url; database := database; credentials := credentials |}.
End Environ.
End Connection.

Module State.
Record t : Type := {
  type : string;
  collectionInterval : Z;
  connection : option Connection.t
}.
End State.

Module Metrics.
Record t : Type := {
  type : string;
  collectionInterval : Z;
  maxThreads : Z;
  hostConnectionTimeout : Z;
  trailing : Z;
  connection : option Connection.t
}.
End Metrics.

Module Databases.
Record t : Type := { state : State.t; metrics : Metrics.t }.
End Databases.

Module Certificates.
Record t : Type := { path : string }.

Section Environ.
Variable environ : gmap string string.

(** [Certificates.expand] (lines 104-108). *)
Definition expand (self : t) : M log t :=
  ret {| path := OsPath.expandvars environ (path self) |}.

Definition __attrs_post_init__ (self : t) : M log t := expand self.

Definition __init__ (path : string) : M log t :=
  __attrs_post_init__ {| path := path |}.
End Environ.
End Certificates.

Module Platform.
Record t : Type := {
  domain : string;
  token : string;
  certificates : Certificates.t;
  actionsQueueMaxSize : Z
}.

(** What an attribute of a [Platform] object can hold. *)
Inductive value : Type :=
| VStr (s : string)
| VInt (n : Z)
| VCertificates (c : Certificates.t).

(** [self.<attr>] as an expression.  [attrs.define] makes the class
    slotted: the object has the four attributes of the record, no
    [__dict__], and reading any other name raises [AttributeError]. *)
Definition getattr (self : t) (attr : string) : M log value :=
  if String.eqb attr "domain" then ret (VStr (domain self))
  else if String.eqb attr "token" then ret (VStr (token self))
  else if String.eqb attr "certificates" then ret (VCertificates (certificates self))
  else if String.eqb attr "actionsQueueMaxSize" then ret (VInt (actionsQueueMaxSize self))
  else raise (AttributeError "Platform" attr).

(** [self.<attr> = v].  Only a slot can be assigned. *)
Definition setattr (self : t) (attr : string) (v : value) : M log t :=
  if String.eqb attr "domain" then
    match v with
    | VStr s => ret {| domain := s; token := token self;
                       certificates := certificates self;
                       actionsQueueMaxSize := actionsQueueMaxSize self |}
    | _ => raise (TypeError "domain")
    end
  else if String.eqb attr "token" then
    match v with
    | VStr s => ret {| domain := domain self; token := s;
                       certificates := certificates self;
                       actionsQueueMaxSize := actionsQueueMaxSize self |}
    | _ => raise (TypeError "token")
    end
  else if String.eqb attr "certificates" then
    match v with
    | VCertificates c => ret {| domain := domain self; token := token self;
                                certificates := c;
                                actionsQueueMaxSize := actionsQueueMaxSize self |}
    | _ => raise (TypeError "certificates")
    end
  else if String.eqb attr "actionsQueueMaxSize" then
    match v with
    | VInt n => ret {| domain := domain self; token := token self;
                       certificates := certificates self;
                       actionsQueueMaxSize := n |}
    | _ => raise (TypeError "actionsQueueMaxSize")
    end
  else raise (AttributeError "Platform" attr).

Section Environ.
Variable environ : gmap string string.

(** [os.path.expandvars] on an attribute value: [os.fspath] rejects
    what is not a path. *)
Definition expandvars (v : value) : M log value :=
  match v with
  | VStr s => ret (VStr (OsPath.expandvars environ s))
  | _ => raise (TypeError "expected str, bytes or os.PathLike object")
  end.

(** [Platform.expand] (lines 127-133): the three statements name the
    attributes [platform], [token] and [cacert]. *)
Definition expand (self : t) : M log t :=
  v ← getattr self "platform";
  v ← expandvars v;
  self ← setattr self "platform" v;
  v ← getattr self "token";
  v ← expandvars v;
  self ← setattr self "token" v;
  v ← getattr self "cacert";
  v ← expandvars v;
  self ← setattr self "cacert" v;
  ret self.

Definition __attrs_post_init__ (self : t) : M log t := expand self.

Definition __init__ (domain token : string) (certificates : Certificates.t)
    (actionsQueueMaxSize : Z) : M log t :=
  __attrs_post_init__
    {| domain := domain; token := token; certificates := certificates;
       actionsQueueMaxSize := actionsQueueMaxSize |}.
End Environ.
End Platform.

Module Reconciliation.
Record t : Type := { interval : Z }.
End Reconciliation.

Module Resources.
Record t : Type := { cpu : Z; memory : Z }.
End Resources.

Module Host.
Record t : Type := {
  name : string;
  address : string;
  protocol : string;
  port : Z;
  hypervisor : string;
  resources : Resources.t
}.
End Host.

Module CloudInit.
Record t : Type := {
  user_data : string;
  meta_data : string;
  network_data : string;
  vendor_data : string
}.
End CloudInit.

Module HostReplacementStrategy.
Record t : Type := { strategy : string; maxUnavailable : Z; maxSurge : Z }.
End HostReplacementStrategy.

Module Network.
Record t : Type := {
  dhcp : bool;
  gateway : string;
  netmask : string;
  subnet : string;
  addressRange : option string
}.

(** [self.addressRange is None]. *)
Definition is_None {A} (o : option A) : bool :=
  match o with
  | None => true
  | Some _ => false
  end.

(** [Network.__attrs_post_init__] (lines 198-204). *)
Definition __attrs_post_init__ (self : t) : M log t :=
  if dhcp self && is_None (addressRange self) then
    log_error "Address range must be provided if DHCP is enabled.";;
    sys_exit 1
  else ret self.

(** [addressRange] has the default [None]. *)
Definition __init__ (dhcp : bool) (gateway netmask subnet : string)
    (addressRange : option string) : M log t :=
  __attrs_post_init__
    {| dhcp := dhcp; gateway := gateway; netmask := netmask;
       subnet := subnet; addressRange := addressRange |}.
End Network.

Module ScaleStrategy.
Record t : Type := {
  min : Z;
  max : Z;
  desired : Z;
  increment : Z;
  cooldown : Z;
  method : string;
  targetUtilization : gmap string Z
}.
End ScaleStrategy.

Module AutoscalingGroup.
Record t : Type := {
  image : string;
  domainName : string;
  imageMigrationType : string;
  cloudInit : CloudInit.t;
  hosts : list Host.t;
  replacement : HostReplacementStrategy.t;
  networking : Network.t;
  scaling : ScaleStrategy.t
}.
End AutoscalingGroup.

Module AutoscalingGroups.
(** The class declares no attribute of its own, and [attrs.define] makes
    it slotted: an instance has no attribute and no [__dict__]. *)
Record t : Type := object { }.

(** [setattr(self, key, value)] on such an instance.  Nothing can be
    stored.  The name [__class__] is the one attribute of [object] that
    takes an assignment, and it refuses a value that is not a class with
    [TypeError]; every other name raises [AttributeError], as a name the
    object does not have or as one it cannot write. *)
Definition setattr (self : t) (key : string) (value : AutoscalingGroup.t)
    : M log t :=
  if String.eqb key "__class__" then
    raise (TypeError "__class__ must be set to a class")
  else raise (AttributeError "AutoscalingGroups" key).

(** [AutoscalingGroups.__init__] (lines 243-252): the loop over
    [kwargs.items()]. *)
Fixpoint __init__loop (self : t) (items : list (string * AutoscalingGroup.t))
    : M log t :=
  match items with
  | [] => ret self
  | (key, value) :: items' =>
      self ← setattr self key value;
      __init__loop self items'
  end.

Definition __init__ (kwargs : list (string * AutoscalingGroup.t)) : M log t :=
  __init__loop object kwargs.
End AutoscalingGroups.

Module Autoscale.
Record t : Type := { hosts : list Host.t; groups : AutoscalingGroups.t }.
End Autoscale.

Module Healthcheck.
Record t : Type := { host : string; port : Z; path : string }.
End Healthcheck.

Module Controller.
Record t : Type := {
  databases : Databases.t;
  platform : Platform.t;
  reconciliation : Reconciliation.t;
  autoscale : Autoscale.t;
  healthcheck : Healthcheck.t
}.
End Controller.

(** A parsed document: what a YAML or JSON loader returns.  A mapping keeps
    its entries in order; its keys are strings. *)
Inductive pyval : Type :=
| PyNone
| PyBool (b : bool)
| PyInt (n : Z)
| PyStr (s : string)
| PyList (l : list pyval)
| PyDict (d : list (string * pyval)).

(** [d[key]] on the entries of a mapping. *)
Fixpoint entry (d : list (string * pyval)) (key : string) : option pyval :=
  match d with
  | [] => None
  | (k, v) :: d' => if String.eqb k key then Some v else entry d' key
  end.

(** [o[key]] for a string [key]: a mapping answers or raises [KeyError];
    nothing else can be indexed by a string. *)
Definition subscript (o : pyval) (key : string) : M log pyval :=
  match o with
  | PyDict d =>
      match entry d key with
      | Some v => ret v
      | None => raise (KeyError key)
      end
  | _ => raise (TypeError "indices must be integers")
  end.

(** [key in o] for a string [key]. *)
Definition contains (o : pyval) (key : string) : M log bool :=
  match o with
  | PyDict d => ret (bool_decide (is_Some (entry d key)))
  | PyStr s => ret (bool_decide (is_Some (String.index 0 key s)))
  | PyList l =>
      ret (existsb (fun v => match v with
                             | PyStr s => String.eqb s key
                             | _ => false
                             end) l)
  | _ => raise (TypeError "argument is not iterable")
  end.

Fixpoint characters (s : string) : list pyval :=
  match s with
  | EmptyString => []
  | String c s' => PyStr (String c "") :: characters s'
  end.

(** [for e in o]: the elements of a list, the keys of a mapping, the
    characters of a string. *)
Definition iterate (o : pyval) : M log (list pyval) :=
  match o with
  | PyList l => ret l
  | PyDict d => ret (map (fun kv => PyStr (fst kv)) d)
  | PyStr s => ret (characters s)
  | _ => raise (TypeError "object is not iterable")
  end.

Module Config.
Record t : Type := { version : string; controller : Controller.t }.

(** ** [cattrs.structure], imported under the name [from_dict]

    For an [attrs] class, [structure(o, cls)] structures each attribute
    of the class, in declaration order, from the entry of [o] under the
    attribute's name, and calls [cls] with the results; an attribute with
    a default is left out when [o] has no such entry.  An exception
    raised on the way ends the call.  (With cattrs' detailed validation
    the exception that reaches the caller is a [ClassValidationError]
    grouping the ones raised underneath; the model keeps the first one
    and not the grouping.)  [str] and [int] attributes are structured by
    calling [str(v)] and [int(v)]; these two built-ins are parameters. *)
Section Structure.
Variable environ : gmap string string.
Variable str_ : pyval -> string.
Variable int_ : pyval -> outcome Z.

Definition structure_str (o : pyval) : M log string := ret (str_ o).
Definition structure_int (o : pyval) : M log Z := lift (int_ o).

Definition attribute {A} (o : pyval) (key : string)
    (structure : pyval -> M log A) : M log A :=
  v ← subscript o key;
  structure v.

(** An attribute declared [T | None] with default [None]. *)
Definition attribute_optional {A} (o : pyval) (key : string)
    (structure : pyval -> M log A) : M log (option A) :=
  present ← contains o key;
  if present : bool then
    v ← subscript o key;
    match v with
    | PyNone => ret None
    | _ => a ← structure v; ret (Some a)
    end
  else ret None.

Fixpoint structure_each {A} (structure : pyval -> M log A)
    (l : list pyval) : M log (list A) :=
  match l with
  | [] => ret []
  | v :: l' =>
      a ← structure v;
      r ← structure_each structure l';
      ret (a :: r)
  end.

(** An attribute declared [List[T]]. *)
Definition structure_list {A} (structure : pyval -> M log A)
    (o : pyval) : M log (list A) :=
  l ← iterate o;
  structure_each structure l.

Definition structure_DatabaseCredentials (o : pyval)
    : M log DatabaseCredentials.t :=
  username ← attribute o "username" structure_str;
  password ← attribute o "password" structure_str;
  ret {| DatabaseCredentials.username := username;
         DatabaseCredentials.password := password |}.

Definition structure_Connection (o : pyval) : M log Connection.t :=
  url ← attribute o "url" structure_str;
  database ← attribute o "database" structure_str;
  credentials ← attribute o "credentials" structure_DatabaseCredentials;
  Connection.__init__ environ url database credentials.

Definition structure_State (o : pyval) : M log State.t :=
  type ← attribute o "type" structure_str;
  collectionInterval ← attribute o "collectionInterval" structure_int;
  connection ← attribute_optional o "connection" structure_Connection;
  ret {| State.type := type;
         State.collectionInterval := collectionInterval;
         State.connection := connection |}.

Definition structure_Metrics (o : pyval) : M log Metrics.t :=
  type ← attribute o "type" structure_str;
  collectionInterval ← attribute o "collectionInterval" structure_int;
  maxThreads ← attribute o "maxThreads" structure_int;
  hostConnectionTimeout ← attribute o "hostConnectionTimeout" structure_int;
  trailing ← attribute o "trailing" structure_int;
  connection ← attribute_optional o "connection" structure_Connection;
  ret {| Metrics.type := type;
         Metrics.collectionInterval := collectionInterval;
         Metrics.maxThreads := maxThreads;
         Metrics.hostConnectionTimeout := hostConnectionTimeout;
         Metrics.trailing := trailing;
         Metrics.connection := connection |}.

Definition structure_Databases (o : pyval) : M log Databases.t :=
  state ← attribute o "state" structure_State;
  metrics ← attribute o "metrics" structure_Metrics;
  ret {| Databases.state := state; Databases.metrics := metrics |}.

Definition structure_Certificates (o : pyval) : M log Certificates.t :=
  path ← attribute o "path" structure_str;
  Certificates.__init__ environ path.

Definition structure_Platform (o : pyval) : M log Platform.t :=
  domain ← attribute o "domain" structure_str;
  token ← attribute o "token" structure_str;
  certificates ← attribute o "certificates" structure_Certificates;
  actionsQueueMaxSize ← attribute o "actionsQueueMaxSize" structure_int;
  Platform.__init__ environ domain token certificates actionsQueueMaxSize.

Definition structure_Reconciliation (o : pyval) : M log Reconciliation.t :=
  interval ← attribute o "interval" structure_int;
  ret {| Reconciliation.interval := interval |}.

Definition structure_Resources (o : pyval) : M log Resources.t :=
  cpu ← attribute o "cpu" structure_int;
  memory ← attribute o "memory" structure_int;
  ret {| Resources.cpu := cpu; Resources.memory := memory |}.

Definition structure_Host (o : pyval) : M log Host.t :=
  name ← attribute o "name" structure_str;
  address ← attribute o "address" structure_str;
  protocol ← attribute o "protocol" structure_str;
  port ← attribute o "port" structure_int;
  hypervisor ← attribute o "hypervisor" structure_str;
  resources ← attribute o "resources" structure_Resources;
  ret {| Host.name := name; Host.address := address;
         Host.protocol := protocol; Host.port := port;
         Host.hypervisor := hypervisor; Host.resources := resources |}.

(** The class has no attribute to structure: it is called without
    arguments, whatever [o] holds. *)
Definition structure_AutoscalingGroups (o : pyval)
    : M log AutoscalingGroups.t :=
  AutoscalingGroups.__init__ [].

Definition structure_Autoscale (o : pyval) : M log Autoscale.t :=
  hosts ← attribute o "hosts" (structure_list structure_Host);
  groups ← attribute o "groups" structure_AutoscalingGroups;
  ret {| Autoscale.hosts := hosts; Autoscale.groups := groups |}.

Definition structure_Healthcheck (o : pyval) : M log Healthcheck.t :=
  host ← attribute o "host" structure_str;
  port ← attribute o "port" structure_int;
  path ← attribute o "path" structure_str;
  ret {| Healthcheck.host := host; Healthcheck.port := port;
         Healthcheck.path := path |}.

Definition structure_Controller (o : pyval) : M log Controller.t :=
  databases ← attribute o "databases" structure_Databases;
  platform ← attribute o "platform" structure_Platform;
  reconciliation ← attribute o "reconciliation" structure_Reconciliation;
  autoscale ← attribute o "autoscale" structure_Autoscale;
  healthcheck ← attribute o "healthcheck" structure_Healthcheck;
  ret {| Controller.databases := databases;
         Controller.platform := platform;
         Controller.reconciliation := reconciliation;
         Controller.autoscale := autoscale;
         Controller.healthcheck := healthcheck |}.

Definition structure_Config (o : pyval) : M log t :=
  version ← attribute o "version" structure_str;
  controller ← attribute o "controller" structure_Controller;
  ret {| version := version; controller := controller |}.

(** [Config.from_dict] (lines 294-305). *)
Definition from_dict (config : pyval) : M log t := structure_Config config.

End Structure.
End Config.

End V1alpha1.

(* ===================================================================== *)
(** * premiscale/controller/daemon.py                                     *)
(* ===================================================================== *)

Module Daemon.
Import Py.

(** Modelled from the spec: [premiscale.config._config.Config] is not part
    of the sources at hand.  Section 4.8 makes the [controller_config]
    argument the validated Configuration Document, and the Metrics
    Collector and the Reconciliation Engine are bound to the connections of
    the metrics and state databases. *)
Definition Config : Type := V1alpha1.Config.t.

Definition controller_databases_metrics_connection (c : Config)
    : option V1alpha1.Connection.t :=
  V1alpha1.Metrics.connection
    (V1alpha1.Databases.metrics
       (V1alpha1.Controller.databases (V1alpha1.Config.controller c))).

Definition controller_databases_state_connection (c : Config)
    : option V1alpha1.Connection.t :=
  V1alpha1.State.connection
    (V1alpha1.Databases.state
       (V1alpha1.Controller.databases (V1alpha1.Config.controller c))).

(** What [register] returns on success. *)
Record registration : Type := { handle : string }.

(** The proxies returned by [manager.Queue()], numbered in creation order. *)
Inductive Queue : Type := QueueProxy (id : nat).

(** The callable objects handed to the process pool.  The four classes live
    in modules that are not part of the sources at hand; an instance is the
    arguments it was built from. *)
Inductive worker : Type :=
| Platform (registration : registration) (version host path cacert : string)
| ASG
| Metrics (connection : option V1alpha1.Connection.t)
| Reconcile (state_connection metrics_connection : option V1alpha1.Connection.t).

(** The callables handed to the thread pool. *)
Inductive thread_target : Type :=
| healthcheck_run (host : string) (port : Z).

(** How a submitted callable behaves once it runs. *)
Inductive run : Type :=
| Finishes
| Fails (e : exn)
| RunsForever.

(** What [start] does, in order. *)
Inductive event : Type :=
| SetProcTitle (title : string)
| ThreadSubmit (f : thread_target)
| ThreadPoolShutdown
| ManagerQueue (q : Queue)
| Register (token version host path cacert : string)
           (result : option registration)
| ProcessSubmit (w : worker) (args : list Queue)
| FutureResult (w : worker) (args : list Queue)
| ManagerShutdown
| ProcessPoolShutdown.

(** A step of the main thread continues with a value, lets an exception
    propagate, or never comes back. *)
Inductive status (A : Type) : Type :=
| Continue (a : A)
| Raised (e : exn)
| Blocked.
Arguments Continue {A} a.
Arguments Raised {A} e.
Arguments Blocked {A}.

Definition proc (A : Type) : Type := list event -> status A * list event.

#[local] Instance proc_ret : MRet proc := fun A a t => (Continue a, t).
#[local] Instance proc_bind : MBind proc := fun A B k c t =>
  match c t with
  | (Continue a, t') => k a t'
  | (Raised e, t') => (Raised e, t')
  | (Blocked, t') => (Blocked, t')
  end.

Definition emit (e : event) : proc unit := fun t => (Continue tt, (t ++ [e])%list).

(** A submitted call: the callable and its arguments. *)
Record Future : Type := { fn : worker; args : list Queue }.

Section World.
(** The surroundings of [start]: how the health-check server, the
    registration call and the workers behave. *)
Variable healthcheck_app : string -> Z -> run.
Variable register : string -> string -> string -> string -> string
                    -> option registration.
Variable worker_run : worker -> list Queue -> run.

Definition thread_run (f : thread_target) : run :=
  match f with
  | healthcheck_run host port => healthcheck_app host port
  end.

Definition runs_forever (r : run) : bool :=
  match r with
  | RunsForever => true
  | _ => false
  end.

(** The submitted threads, respectively processes, that never finish. *)
Definition thread_pending (e : event) : bool :=
  match e with
  | ThreadSubmit f => runs_forever (thread_run f)
  | _ => false
  end.

Definition process_pending (e : event) : bool :=
  match e with
  | ProcessSubmit w a => runs_forever (worker_run w a)
  | _ => false
  end.

(** [with concurrent.futures.ThreadPoolExecutor() as tp: body].  Leaving
    the block calls [shutdown(wait=True)], which joins every thread of
    the pool.  An exception of a submitted call stays in its future. *)
Definition with_ThreadPoolExecutor {A} (body : proc A) : proc A :=
  fun t =>
    match body t with
    | (Blocked, t1) => (Blocked, t1)
    | (r, t1) =>
        let t2 := (t1 ++ [ThreadPoolShutdown])%list in
        if existsb thread_pending t1 then (Blocked, t2) else (r, t2)
    end.

(** [with concurrent.futures.ProcessPoolExecutor() as executor,
    mp.Manager() as manager: body].  The manager is left first; leaving
    the executor waits for every submitted call. *)
Definition with_ProcessPoolExecutor_Manager {A} (body : proc A) : proc A :=
  fun t =>
    match body t with
    | (Blocked, t1) => (Blocked, t1)
    | (r, t1) =>
        let t2 := (t1 ++ [ManagerShutdown; ProcessPoolShutdown])%list in
        if existsb process_pending t1 then (Blocked, t2) else (r, t2)
    end.

Definition is_ManagerQueue (e : event) : bool :=
  match e with
  | ManagerQueue _ => true
  | _ => false
  end.

(** [manager.Queue()]. *)
Definition manager_Queue : proc Queue :=
  fun t =>
    let q := QueueProxy (length (filter (fun e => is_ManagerQueue e = true) t)) in
    (Continue q, (t ++ [ManagerQueue q])%list).

(** [register(token=..., version=..., host=..., path=..., cacert=...)]. *)
Definition call_register (token version host path cacert : string)
    : proc (option registration) :=
  let r := register token version host path cacert in
  emit (Register token version host path cacert r);;
  mret r.

(** [main_process_tp.submit(f)]. *)
Definition thread_submit (f : thread_target) : proc unit :=
  emit (ThreadSubmit f).

(** [executor.submit(w, *args)]. *)
Definition executor_submit (w : worker) (a : list Queue) : proc Future :=
  emit (ProcessSubmit w a);;
  mret {| fn := w; args := a |}.

(** Waiting for a submitted call to end. *)
Definition wait (r : run) : proc unit :=
  fun t =>
    match r with
    | Finishes => (Continue tt, t)
    | Fails e => (Raised e, t)
    | RunsForever => (Blocked, t)
    end.

(** [process.result()]: waits for the call and re-raises what it raised. *)
Definition result (p : Future) : proc unit :=
  emit (FutureResult (fn p) (args p));;
  wait (worker_run (fn p) (args p)).

(** The loop of lines 125-127. *)
Fixpoint wait_all (processes : list (option Future)) : proc unit :=
  match processes with
  | [] => mret tt
  | Some process :: rest => result process;; wait_all rest
  | None :: rest => wait_all rest
  end.

(** [start] (lines 30-129). *)
Definition start (working_dir pid_file : string) (controller_config : Config)
    (controller_version token host cacert : string) : proc Z :=
  emit (SetProcTitle "premiscale");;
  with_ThreadPoolExecutor
    (thread_submit (healthcheck_run host 8085));;
  with_ProcessPoolExecutor_Manager
    (autoscaling_action_queue ← manager_Queue;
     platform_message_queue ← manager_Queue;
     registration ← call_register token controller_version
                      ("https://" +:+ host) "agent/registration" cacert;
     p1 ← match registration with
          | Some registration =>
              p ← executor_submit
                    (Platform registration controller_version
                       ("wss://" +:+ host) "agent/websocket" cacert)
                    [platform_message_queue];
              mret (Some p)
          | None => mret None
          end;
     p2 ← executor_submit ASG [autoscaling_action_queue];
     p3 ← executor_submit
            (Metrics (controller_databases_metrics_connection controller_config))
            [];
     p4 ← executor_submit
            (Reconcile (controller_databases_state_connection controller_config)
                       (controller_databases_metrics_connection controller_config))
            [autoscaling_action_queue; platform_message_queue];
     let processes := [p1; Some p2; Some p3; Some p4] in
     wait_all processes);;
  mret 0.

End World.

(** The workers launched in a trace. *)
Definition launched (w : worker) (t : list event) : Prop :=
  exists a, In (ProcessSubmit w a) t.


End Daemon.

(* ===================================================================== *)
(** * Properties of the hypervisor connection                             *)
(* ===================================================================== *)

Module HypervisorSpec.
Import Py Hypervisor.

(** The two connection targets of the specification. *)
Definition ssh_target (hypervisor : string) (user : option string)
    (address : IPv4Address) (port : Z) : string :=
  hypervisor +:+ "+ssh://" +:+ str_opt user +:+ "@" +:+ str_IPv4Address address
  +:+ ":" +:+ str_int port +:+ "/system".

Definition tls_target (hypervisor : string) (address : IPv4Address)
    (port : Z) : string :=
  hypervisor +:+ "+tls://" +:+ str_IPv4Address address
  +:+ ":" +:+ str_int port +:+ "/system".

(** The address [a.b.c.d]. *)
Definition ipv4 (a b c d : Z) : IPv4Address :=
  {| _ip := Z.lor (Z.shiftl a 24) (Z.lor (Z.shiftl b 16) (Z.lor (Z.shiftl c 8) d)) |}.

Lemma lower_ascii_idempotent c : lower_ascii (lower_ascii c) = lower_ascii c.
Proof.
  destruct c as [[] [] [] [] [] [] [] []]; reflexivity.
Qed.

Lemma lower_idempotent s : lower (lower s) = lower s.
Proof.
  induction s as [| c s IH]; simpl; [reflexivity |].
  now rewrite lower_ascii_idempotent, IH.
Qed.

Lemma lower_length s : String.length (lower s) = String.length s.
Proof.
  induction s as [| c s IH]; simpl; [reflexivity | now rewrite IH].
Qed.

(** The protocol test of [__init__], as a rewriting rule. *)
Lemma connection_string_init n a p protocol h u r res :
  connection_string (__init__ n a p protocol h u r res) =
  if String.eqb (lower protocol) "ssh" then ssh_target h u a p
  else tls_target h a p.
Proof. reflexivity. Qed.

Lemma octet_byte ip i : 0 <= i -> 0 <= octet ip i < 256.
Proof.
  intros Hi. unfold octet.
  change 255 with (Z.ones 8). rewrite Z.land_ones by lia.
  apply Z.mod_pos_bound. lia.
Qed.

(** Runs a method on a store by unfolding the primitives of the model. *)
Ltac run :=
  unfold open, close, try_except_libvirtError, call_lv_open,
    call_lv_openReadOnly, call_virConnectClose, log_info, log_error, emit,
    put_connection,
    get_self, lift, mbind, mret, M_bind, M_ret, bind, ret;
  simpl.

Section Binding.
Variable lv_open : string -> outcome virConnect.
Variable lv_openReadOnly : string -> outcome virConnect.
Variable virConnectClose : virConnect -> outcome unit.

(** The call into the binding that [open] makes for an object. *)
Definition attempt (self : Libvirt) : outcome virConnect :=
  if readonly self then lv_openReadOnly (connection_string self)
  else lv_open (connection_string self).

Definition attempt_event (self : Libvirt) : event :=
  if readonly self then LvOpenReadOnly (connection_string self)
  else LvOpen (connection_string self).

(** The records that a successful [open] leaves besides the call. *)
Definition connected_log (self : Libvirt) : list event :=
  if readonly self then []
  else [Log (LogRecord INFO ("Connected to host at " +:+ connection_string self))].

Definition failed_log (self : Libvirt) (msg : string) : event :=
  Log (LogRecord ERROR ("Failed to connect to host at "
                        +:+ connection_string self +:+ ": " +:+ msg)).


Definition nothing_to_close_log : event :=
  Log (LogRecord ERROR
         "No host connection to close, probably due to an error on connection open.").

(** The store right after a successful [open] that obtained [h]. *)
Definition opened (s : state) (h : virConnect) : state :=
  {| self_ := set_connection (self_ s) (Some h);
     trace := (trace s ++ [attempt_event (self_ s)] ++ connected_log (self_ s))%list |}.





Lemma open_success s h :
  attempt (self_ s) = Return h ->
  open lv_open lv_openReadOnly s
  = (Return (Some (self_ (opened s h))), opened s h).
Proof.
  destruct s as [self t].
  unfold opened, attempt, attempt_event, connected_log. simpl.
  intros H. run.
  destruct (readonly self); simpl; rewrite H; simpl;
    rewrite <- ?app_assoc; reflexivity.
Qed.

Lemma open_failure s msg :
  attempt (self_ s) = Raise (libvirtError msg) ->
  open lv_open lv_openReadOnly s =
  (Return None,
   {| self_ := self_ s;
      trace := (trace s ++ [attempt_event (self_ s); failed_log (self_ s) msg])%list |}).
Proof.
  destruct s as [self t]. unfold attempt, attempt_event, failed_log. simpl.
  intros H. run.
  destruct (readonly self); simpl; rewrite H; simpl;
    rewrite <- ?app_assoc; reflexivity.
Qed.

(** An exception of the binding that is not a [libvirtError] is not
    caught by [open]. *)
Lemma open_other_exception s e :
  attempt (self_ s) = Raise e ->
  (forall msg, e <> libvirtError msg) ->
  open lv_open lv_openReadOnly s =
  (Raise e, {| self_ := self_ s;
               trace := (trace s ++ [attempt_event (self_ s)])%list |}).
Proof.
  destruct s as [self t]. unfold attempt, attempt_event. simpl.
  intros H Hne. run.
  destruct (readonly self); simpl; rewrite H; simpl;
    destruct e; try reflexivity; exfalso; eapply Hne; reflexivity.
Qed.


Lemma close_not_held s :
  _connection (self_ s) = None ->
  close virConnectClose s =
  (Return tt,
   {| self_ := self_ s; trace := (trace s ++ [nothing_to_close_log])%list |}).
Proof.
  destruct s as [self t]. simpl. intros H.
  run. now rewrite H.
Qed.

End Binding.





Lemma lower_ascii_s c : lower_ascii c = "s"%char <-> c = "s"%char \/ c = "S"%char.
Proof.
  split.
  - destruct c as [[] [] [] [] [] [] [] []]; vm_compute; intros H;
      first [discriminate H | now left | now right].
  - intros [-> | ->]; reflexivity.
Qed.

Lemma lower_ascii_h c : lower_ascii c = "h"%char <-> c = "h"%char \/ c = "H"%char.
Proof.
  split.
  - destruct c as [[] [] [] [] [] [] [] []]; vm_compute; intros H;
      first [discriminate H | now left | now right].
  - intros [-> | ->]; reflexivity.
Qed.

(** The protocol strings that select the ssh target: the eight spellings
    of ["ssh"] in upper and lower case. *)
Lemma lower_ssh protocol :
  lower protocol = "ssh" <->
  In protocol ["ssh"; "ssH"; "sSh"; "sSH"; "Ssh"; "SsH"; "SSh"; "SSH"].
Proof.
  split.
  - destruct protocol as [| c1 [| c2 [| c3 [| c4 rest]]]]; simpl;
      try discriminate.
    intros H. injection H as H1 H2 H3.
    apply lower_ascii_s in H1, H2. apply lower_ascii_h in H3.
    destruct H1 as [-> | ->], H2 as [-> | ->], H3 as [-> | ->]; tauto.
  - simpl. intros H.
    repeat (destruct H as [<- | H]; [reflexivity |]). destruct H.
Qed.

(* ------------------------------------------------------------------- *)
(** ** Connection string                                                *)
(* ------------------------------------------------------------------- *)

(** C3, as amended.  The protocol is compared after lower-casing: every
    protocol whose lower-case form is ["ssh"] gives
    [<hypervisor>+ssh://<user>@<address>:<port>/system], and every other
    protocol value gives [<hypervisor>+tls://<address>:<port>/system]. *)
Theorem connection_string_by_lowercase_protocol n a p protocol h u r res :
  (lower protocol = "ssh" ->
   connection_string (__init__ n a p protocol h u r res) = ssh_target h u a p) /\
  (lower protocol <> "ssh" ->
   connection_string (__init__ n a p protocol h u r res) = tls_target h a p).
Proof.
  rewrite connection_string_init. split; intros H.
  - rewrite H. reflexivity.
  - destruct (String.eqb_spec (lower protocol) "ssh") as [E | E];
      [contradiction | reflexivity].
Qed.

Lemma connection_string_by_lowercase_protocol_witness :
  connection_string
    (__init__ "kvm-1" (ipv4 10 0 0 5) 22 "ssh" "qemu" (Some "admin") false None)
  = "qemu+ssh://admin@10.0.0.5:22/system" /\
  connection_string
    (__init__ "kvm-1" (ipv4 10 0 0 5) 22 "tls" "qemu" (Some "admin") false None)
  = "qemu+tls://10.0.0.5:22/system".
Proof.
  split.
  - apply (proj1 (connection_string_by_lowercase_protocol
                    "kvm-1" (ipv4 10 0 0 5) 22 "ssh" "qemu" (Some "admin") false None)).
    reflexivity.
  - apply (proj2 (connection_string_by_lowercase_protocol
                    "kvm-1" (ipv4 10 0 0 5) 22 "tls" "qemu" (Some "admin") false None)).
    vm_compute. discriminate.
Defined.

(** C3 as stated fails: the protocol ["SSH"] is a value other than ["ssh"],
    and the connection string built for it is the ssh one, not the tls
    one. *)
Lemma tls_for_every_other_protocol_counterexample :
  "SSH" <> "ssh" /\
  connection_string
    (__init__ "kvm-1" (ipv4 10 0 0 5) 22 "SSH" "qemu" (Some "admin") false None)
  = "qemu+ssh://admin@10.0.0.5:22/system" /\
  connection_string
    (__init__ "kvm-1" (ipv4 10 0 0 5) 22 "SSH" "qemu" (Some "admin") false None)
  <> tls_target "qemu" (ipv4 10 0 0 5) 22.
Proof.
  split; [discriminate |]. split; [reflexivity |].
  vm_compute. discriminate.
Qed.

(** C10.  Protocol matching is case-insensitive: a protocol whose
    lower-case form is ["ssh"] gives the ssh connection string, the same
    string as the protocol ["ssh"] itself gives. *)
Theorem protocol_matching_case_insensitive n a p protocol h u r res :
  lower protocol = "ssh" ->
  connection_string (__init__ n a p protocol h u r res) = ssh_target h u a p /\
  connection_string (__init__ n a p protocol h u r res)
  = connection_string (__init__ n a p "ssh" h u r res).
Proof.
  intros H. rewrite !connection_string_init, H. split; reflexivity.
Qed.

Lemma protocol_matching_case_insensitive_witness :
  connection_string
    (__init__ "kvm-1" (ipv4 10 0 0 5) 22 "Ssh" "qemu" (Some "admin") false None)
  = ssh_target "qemu" (Some "admin") (ipv4 10 0 0 5) 22 /\
  connection_string
    (__init__ "kvm-1" (ipv4 10 0 0 5) 22 "Ssh" "qemu" (Some "admin") false None)
  = connection_string
      (__init__ "kvm-1" (ipv4 10 0 0 5) 22 "ssh" "qemu" (Some "admin") false None).
Proof.
  apply (protocol_matching_case_insensitive
           "kvm-1" (ipv4 10 0 0 5) 22 "Ssh" "qemu" (Some "admin") false None).
  reflexivity.
Defined.

(* ------------------------------------------------------------------- *)
(** ** Opening and closing                                              *)
(* ------------------------------------------------------------------- *)

Section Lifecycle.
Variable lv_open : string -> outcome virConnect.
Variable lv_openReadOnly : string -> outcome virConnect.
Variable virConnectClose : virConnect -> outcome unit.

#[local] Abbreviation attempt := (attempt lv_open lv_openReadOnly).
#[local] Abbreviation open := (open lv_open lv_openReadOnly).
#[local] Abbreviation close := (close virConnectClose).
#[local] Abbreviation with_ := (with_ lv_open lv_openReadOnly virConnectClose).

(** C4.  When the binding returns a handle, [open] stores it and returns
    the object; when the binding raises [libvirtError], [open] logs the
    failure at level ERROR and returns [None]: the call returns, no
    exception reaches the caller, and the object is left as it was. *)
Theorem open_returns_handle_or_None s :
  (forall h, attempt (self_ s) = Return h ->
     open s = (Return (Some (self_ (opened s h))), opened s h) /\
     _connection (self_ (opened s h)) = Some h) /\
  (forall msg, attempt (self_ s) = Raise (libvirtError msg) ->
     open s =
     (Return None,
      {| self_ := self_ s;
         trace := (trace s ++ [attempt_event (self_ s);
                               failed_log (self_ s) msg])%list |})).
Proof.
  split.
  - intros h H. split; [| reflexivity].
    now apply open_success.
  - intros msg H. now apply open_failure.
Qed.


End Lifecycle.

(** A binding that connects, and one that refuses every connection. *)
Definition accepting (uri : string) : outcome virConnect :=
  Return {| conn_id := 1 |}.
Definition refusing (uri : string) : outcome virConnect :=
  Raise (libvirtError "virConnectOpen() failed").

Definition kvm1 : state :=
  {| self_ := __init__ "kvm-1" (ipv4 10 0 0 5) 22 "ssh" "qemu" (Some "admin")
                false None;
     trace := [] |}.

Lemma open_returns_handle_or_None_witness :
  fst (open accepting accepting kvm1)
  = Return (Some (set_connection (self_ kvm1) (Some {| conn_id := 1 |}))) /\
  fst (open refusing refusing kvm1) = Return None.
Proof.
  split.
  - rewrite (proj1 (proj1 (open_returns_handle_or_None accepting accepting kvm1)
                      {| conn_id := 1 |} eq_refl)).
    reflexivity.
  - rewrite (proj2 (open_returns_handle_or_None refusing refusing kvm1)
               "virConnectOpen() failed" eq_refl).
    reflexivity.
Defined.

(** A handle whose [virConnectClose] call returns. *)
Definition releasing (c : virConnect) : outcome unit := Return tt.

(** The handle of libvirt-python: its class [virConnect] names the method
    [close] and has no attribute [virConnectClose], so the call raises. *)
Definition libvirt_python (c : virConnect) : outcome unit :=
  Raise (AttributeError "virConnect" "virConnectClose").




(** With the handle of libvirt-python, [close] after a successful [open]
    raises [AttributeError]: the name [virConnectClose] is looked up on the
    handle and not found, nothing is released and nothing is logged. *)
Lemma close_with_libvirt_python_raises :
  (open accepting accepting ≫= λ _, close libvirt_python) kvm1
  = (Raise (AttributeError "virConnect" "virConnectClose"),
     {| self_ := set_connection (self_ kvm1) (Some {| conn_id := 1 |});
        trace := [LvOpen "qemu+ssh://admin@10.0.0.5:22/system";
                  Log (LogRecord INFO
                         "Connected to host at qemu+ssh://admin@10.0.0.5:22/system");
                  VirConnectClose {| conn_id := 1 |}] |}).
Proof. reflexivity. Qed.

End HypervisorSpec.

(* ===================================================================== *)
(** * Properties of the configuration classes                             *)
(* ===================================================================== *)

Module V1alpha1Spec.
Import Py V1alpha1.

(** ** Variable expansion *)

Lemma append_cons c s1 s2 : String c s1 +:+ s2 = String c (s1 +:+ s2).
Proof. reflexivity. Qed.

Lemma append_assoc s1 s2 s3 : (s1 +:+ s2) +:+ s3 = s1 +:+ (s2 +:+ s3).
Proof.
  induction s1 as [| c s1 IH]; [reflexivity |].
  rewrite !append_cons. now rewrite IH.
Qed.

Lemma append_empty_r s : s +:+ "" = s.
Proof.
  induction s as [| c s IH]; [reflexivity |].
  rewrite append_cons. now rewrite IH.
Qed.

(** Every character of [s] satisfies [p]. *)
Fixpoint all_chars (p : ascii -> bool) (s : string) : bool :=
  match s with
  | EmptyString => true
  | String c s' => p c && all_chars p s'
  end.

(** [s] is empty or starts with a character that satisfies [p]. *)
Definition starts_with (p : ascii -> bool) (s : string) : bool :=
  match s with
  | EmptyString => true
  | String c _ => p c
  end.

Definition not_dollar (c : ascii) : bool := negb (OsPath.is_char c "$").
Definition not_word (c : ascii) : bool := negb (OsPath.is_word c).
Definition not_rbrace (c : ascii) : bool := negb (OsPath.is_char c "}").

Section Environ.
Variable environ : gmap string string.

#[local] Abbreviation expand_from := (OsPath.expand_from environ).
#[local] Abbreviation expandvars := (OsPath.expandvars environ).
#[local] Abbreviation lookup_or := (OsPath.lookup_or environ).

(** Text without a dollar sign is copied. *)
Lemma expand_plain_text pre rest :
  all_chars not_dollar pre = true ->
  expand_from OsPath.Plain (pre +:+ rest) = pre +:+ expand_from OsPath.Plain rest.
Proof.
  induction pre as [| c pre IH]; intros H; [reflexivity |].
  simpl in H. apply andb_true_iff in H as [Hc Hpre].
  rewrite !append_cons. simpl.
  unfold not_dollar in Hc. apply negb_true_iff in Hc. rewrite Hc.
  now rewrite IH.
Qed.

Lemma expandvars_no_dollar path :
  all_chars not_dollar path = true -> expandvars path = path.
Proof.
  intros H. unfold OsPath.expandvars.
  rewrite <- (append_empty_r path) at 1.
  rewrite expand_plain_text by exact H. simpl. apply append_empty_r.
Qed.

Lemma expand_word acc name rest :
  all_chars OsPath.is_word name = true ->
  starts_with not_word rest = true ->
  expand_from (OsPath.Word acc) (name +:+ rest)
  = lookup_or (acc +:+ name) ("$" +:+ acc +:+ name)
    +:+ expand_from OsPath.Plain rest.
Proof.
  revert acc. induction name as [| c name IH]; intros acc Hname Hrest.
  - rewrite !append_empty_r. change ("" +:+ rest) with rest.
    destruct rest as [| c rest]; simpl.
    + now rewrite append_empty_r.
    + simpl in Hrest. unfold not_word in Hrest.
      apply negb_true_iff in Hrest. now rewrite Hrest.
  - simpl in Hname. apply andb_true_iff in Hname as [Hc Hname].
    rewrite append_cons. simpl. rewrite Hc.
    rewrite IH by assumption.
    rewrite !append_assoc. reflexivity.
Qed.

(** A reference [$name]: replaced by the value of a set variable, left
    as it stands for an unset one. *)
Lemma expand_dollar_name c name rest :
  OsPath.is_word c = true ->
  all_chars OsPath.is_word name = true ->
  starts_with not_word rest = true ->
  expand_from OsPath.Plain ("$" +:+ String c name +:+ rest)
  = lookup_or (String c name) ("$" +:+ String c name)
    +:+ expand_from OsPath.Plain rest.
Proof.
  intros Hc Hname Hrest.
  change ("$" +:+ String c name +:+ rest)
    with (String "$" (String c (name +:+ rest))).
  simpl. rewrite Hc.
  now rewrite expand_word.
Qed.

Lemma expand_brace acc name rest :
  all_chars not_rbrace name = true ->
  expand_from (OsPath.Brace acc) (name +:+ "}" +:+ rest)
  = lookup_or (acc +:+ name) ("${" +:+ (acc +:+ name) +:+ "}")
    +:+ expand_from OsPath.Plain rest.
Proof.
  revert acc. induction name as [| c name IH]; intros acc Hname.
  - rewrite !append_empty_r. reflexivity.
  - simpl in Hname. apply andb_true_iff in Hname as [Hc Hname].
    rewrite append_cons. simpl.
    unfold not_rbrace in Hc. apply negb_true_iff in Hc. rewrite Hc.
    rewrite IH by assumption.
    rewrite !append_assoc. reflexivity.
Qed.

(** A reference [${name}], likewise. *)
Lemma expand_dollar_brace name rest :
  all_chars not_rbrace name = true ->
  expand_from OsPath.Plain ("${" +:+ name +:+ "}" +:+ rest)
  = lookup_or name ("${" +:+ name +:+ "}")
    +:+ expand_from OsPath.Plain rest.
Proof.
  intros Hname.
  change ("${" +:+ name +:+ "}" +:+ rest)
    with (String "$" (String "{" (name +:+ "}" +:+ rest))).
  simpl. now rewrite expand_brace.
Qed.

Lemma lookup_or_set name literal value :
  environ !! name = Some value -> lookup_or name literal = value.
Proof. intros H. unfold OsPath.lookup_or. now rewrite H. Qed.

Lemma lookup_or_unset name literal :
  environ !! name = None -> lookup_or name literal = literal.
Proof. intros H. unfold OsPath.lookup_or. now rewrite H. Qed.

(** ** Construction *)

(** [Connection]: the four strings are expanded and construction
    succeeds. *)
Lemma Connection_init_expands url database username password l :
  Connection.__init__ environ url database
    {| DatabaseCredentials.username := username;
       DatabaseCredentials.password := password |} l
  = (Return
       {| Connection.url := expandvars url;
          Connection.database := expandvars database;
          Connection.credentials :=
            {| DatabaseCredentials.username := expandvars username;
               DatabaseCredentials.password := expandvars password |} |},
     l).
Proof. reflexivity. Qed.

(** [Certificates]: the path is expanded and construction succeeds. *)
Lemma Certificates_init_expands path l :
  Certificates.__init__ environ path l
  = (Return {| Certificates.path := expandvars path |}, l).
Proof. reflexivity. Qed.

Lemma Platform_init_raises_AttributeError_at domain token certificates size l :
  Platform.__init__ environ domain token certificates size l
  = (Raise (AttributeError "Platform" "platform"), l).
Proof. reflexivity. Qed.

(** C6 fails on the code for [Platform]: [expand] reads [self.platform],
    which is not an attribute of the class, so constructing a [Platform]
    raises [AttributeError] for every argument and nothing is expanded. *)
Theorem Platform_init_raises_AttributeError domain token certificates size l :
  Platform.__init__ environ domain token certificates size l
  = (Raise (AttributeError "Platform" "platform"), l).
Proof. reflexivity. Qed.

End Environ.

(* ------------------------------------------------------------------- *)
(** ** The DHCP rule of [Network]                                       *)
(* ------------------------------------------------------------------- *)

Definition address_range_error : log_record :=
  LogRecord ERROR "Address range must be provided if DHCP is enabled.".

(** C2, as amended.  With [dhcp] true and no [addressRange] ([None]),
    construction logs an error and ends the process with [sys.exit(1)];
    with [dhcp] true and an [addressRange] given, whatever the string, and
    with [dhcp] false, construction succeeds. *)
Theorem Network_init_requires_addressRange_under_dhcp gateway netmask subnet l :
  Network.__init__ true gateway netmask subnet None l
  = (Raise (SystemExit 1), (l ++ [address_range_error])%list) /\
  (forall range,
     Network.__init__ true gateway netmask subnet (Some range) l
     = (Return {| Network.dhcp := true; Network.gateway := gateway;
                  Network.netmask := netmask; Network.subnet := subnet;
                  Network.addressRange := Some range |}, l)) /\
  (forall addressRange,
     Network.__init__ false gateway netmask subnet addressRange l
     = (Return {| Network.dhcp := false; Network.gateway := gateway;
                  Network.netmask := netmask; Network.subnet := subnet;
                  Network.addressRange := addressRange |}, l)).
Proof.
  split; [reflexivity |]. split; intros; reflexivity.
Qed.

(** C2 as stated fails: a [Network] with [dhcp] true and an empty
    [addressRange] is constructed; nothing is logged and the process goes
    on. *)
Lemma Network_init_empty_addressRange_counterexample :
  Network.__init__ true "192.168.1.1" "255.255.255.0" "192.168.1.0" (Some "") []
  = (Return {| Network.dhcp := true; Network.gateway := "192.168.1.1";
               Network.netmask := "255.255.255.0";
               Network.subnet := "192.168.1.0";
               Network.addressRange := Some "" |}, []).
Proof. reflexivity. Qed.

(* ------------------------------------------------------------------- *)
(** ** [Config.from_dict]                                               *)
(* ------------------------------------------------------------------- *)

(** A computation that raises from every store. *)
Definition raises {A} (c : M log A) : Prop :=
  forall l, exists e l', c l = (Raise e, l').

Lemma raises_bind_l {A B} (c : M log A) (k : A -> M log B) :
  raises c -> raises (c ≫= k).
Proof.
  intros H l. destruct (H l) as (e & l' & E).
  exists e, l'. unfold mbind, M_bind, bind. now rewrite E.
Qed.

Lemma raises_bind_r {A B} (c : M log A) (k : A -> M log B) :
  (forall a, raises (k a)) -> raises (c ≫= k).
Proof.
  intros H l. unfold mbind, M_bind, bind.
  destruct (c l) as [[a | e] l'].
  - apply H.
  - now exists e, l'.
Qed.

Section Structure.
Variable environ : gmap string string.
Variable str_ : pyval -> string.
Variable int_ : pyval -> outcome Z.

Lemma Platform_init_raises domain token certificates size :
  raises (Platform.__init__ environ domain token certificates size).
Proof.
  intros l. eexists _, _. apply Platform_init_raises_AttributeError_at.
Qed.

Lemma structure_Platform_raises o :
  raises (Config.structure_Platform environ str_ int_ o).
Proof.
  unfold Config.structure_Platform.
  do 4 (apply raises_bind_r; intros ?).
  apply Platform_init_raises.
Qed.

Lemma structure_Controller_raises o :
  raises (Config.structure_Controller environ str_ int_ o).
Proof.
  unfold Config.structure_Controller.
  apply raises_bind_r; intros databases.
  apply raises_bind_l. unfold Config.attribute.
  apply raises_bind_r; intros v. apply structure_Platform_raises.
Qed.

(** No document is turned into a [Config]. *)
Lemma from_dict_raises config :
  raises (Config.from_dict environ str_ int_ config).
Proof.
  unfold Config.from_dict, Config.structure_Config.
  apply raises_bind_r; intros version.
  apply raises_bind_l. unfold Config.attribute.
  apply raises_bind_r; intros v. apply structure_Controller_raises.
Qed.

End Structure.

(** ** A sample document *)

(** [str()] and [int()] on the scalars of a document.  The examples pass
    nothing else: the text of a list or of a mapping is left empty, and a
    string is not read as a number. *)
Definition scalar_str (v : pyval) : string :=
  match v with
  | PyNone => "None"
  | PyBool true => "True"
  | PyBool false => "False"
  | PyInt n => str_int n
  | PyStr s => s
  | PyList _ | PyDict _ => ""
  end.

Definition scalar_int (v : pyval) : outcome Z :=
  match v with
  | PyInt n => Return n
  | PyBool true => Return 1
  | PyBool false => Return 0
  | PyStr _ => Raise (ValueError "invalid literal for int() with base 10")
  | _ => Raise (TypeError "int() argument must be a string or a real number")
  end.

Definition sample_connection : pyval :=
  PyDict [("url", PyStr "postgres://$DB_HOST/db");
          ("database", PyStr "premiscale");
          ("credentials", PyDict [("username", PyStr "$DB_USER");
                                  ("password", PyStr "${DB_PASSWORD}")])].

Definition sample_controller : pyval :=
  PyDict
    [("databases",
      PyDict [("state", PyDict [("type", PyStr "mysql");
                                ("collectionInterval", PyInt 60);
                                ("connection", sample_connection)]);
              ("metrics", PyDict [("type", PyStr "influxdb");
                                  ("collectionInterval", PyInt 10);
                                  ("maxThreads", PyInt 4);
                                  ("hostConnectionTimeout", PyInt 30);
                                  ("trailing", PyInt 5)])]);
     ("platform",
      PyDict [("domain", PyStr "app.premiscale.com");
              ("token", PyStr "$PREMISCALE_TOKEN");
              ("certificates", PyDict [("path", PyStr "/opt/premiscale/ca.pem")]);
              ("actionsQueueMaxSize", PyInt 50)]);
     ("reconciliation", PyDict [("interval", PyInt 5)]);
     ("autoscale", PyDict [("hosts", PyList []); ("groups", PyDict [])]);
     ("healthcheck", PyDict [("host", PyStr "127.0.0.1");
                             ("port", PyInt 8085);
                             ("path", PyStr "/healthcheck")])].

Definition sample_document (version : string) : pyval :=
  PyDict [("version", PyStr version); ("controller", sample_controller)].

Definition sample_environ : gmap string string :=
  <["DB_HOST" := "metrics.local"]> (<["DB_USER" := "premiscale"]> ∅).

(** A variable that is set is replaced; one that is not is left as it
    stands. *)
Example structure_Connection_sample :
  Config.structure_Connection sample_environ scalar_str sample_connection []
  = (Return
       {| Connection.url := "postgres://metrics.local/db";
          Connection.database := "premiscale";
          Connection.credentials :=
            {| DatabaseCredentials.username := "premiscale";
               DatabaseCredentials.password := "${DB_PASSWORD}" |} |},
     []).
Proof. vm_compute. reflexivity. Qed.

(** [from_dict] does not read the version.  The sample document under the
    one defined version, and under another one: the same exception either
    way. *)
Example from_dict_sample_v1alpha1 :
  fst (Config.from_dict sample_environ scalar_str scalar_int
         (sample_document "v1alpha1") [])
  = Raise (AttributeError "Platform" "platform").
Proof. vm_compute. reflexivity. Qed.

Example from_dict_sample_v2 :
  fst (Config.from_dict sample_environ scalar_str scalar_int
         (sample_document "v2") [])
  = Raise (AttributeError "Platform" "platform").
Proof. vm_compute. reflexivity. Qed.

End V1alpha1Spec.

(* ===================================================================== *)
(** * Properties of the daemon's start function                           *)
(* ===================================================================== *)

Module DaemonSpec.
Import Py Daemon.

Definition startup_events (host : string) : list event :=
  [SetProcTitle "premiscale";
   ThreadSubmit (healthcheck_run host 8085);
   ThreadPoolShutdown].

Definition action_queue : Queue := QueueProxy 0.
Definition platform_queue : Queue := QueueProxy 1.

Definition core_submissions (c : Config) : list event :=
  [ProcessSubmit ASG [action_queue];
   ProcessSubmit (Metrics (controller_databases_metrics_connection c)) [];
   ProcessSubmit (Reconcile (controller_databases_state_connection c)
                            (controller_databases_metrics_connection c))
     [action_queue; platform_queue]].


(** The health-check section of a configuration. *)
Definition healthcheck_of (c : Config) : V1alpha1.Healthcheck.t :=
  V1alpha1.Controller.healthcheck (V1alpha1.Config.controller c).

(** C7 as the specification words it: every server handed to the thread
    pool is bound to the host and port of the health-check section. *)
Definition bound_to_healthcheck_section (c : Config) (t : list event) : Prop :=
  forall host port,
    In (ThreadSubmit (healthcheck_run host port)) t ->
    host = V1alpha1.Healthcheck.host (healthcheck_of c) /\
    port = V1alpha1.Healthcheck.port (healthcheck_of c).

(** The events of waiting for the workers and of leaving the pool. *)
Definition is_wait_or_shutdown (e : event) : bool :=
  match e with
  | FutureResult _ _ | ManagerShutdown | ProcessPoolShutdown => true
  | _ => false
  end.

Ltac step :=
  unfold start, with_ThreadPoolExecutor, with_ProcessPoolExecutor_Manager,
    thread_submit, executor_submit, call_register, manager_Queue,
    emit, mbind, mret, proc_bind, proc_ret;
  simpl.

Section World.
Variable healthcheck_app : string -> Z -> run.
Variable register : string -> string -> string -> string -> string
                    -> option registration.
Variable worker_run : worker -> list Queue -> run.

Lemma wait_all_trace processes t :
  exists rest,
    snd (wait_all worker_run processes t) = (t ++ rest)%list /\
    forallb is_wait_or_shutdown rest = true.
Proof.
  revert t. induction processes as [| [p |] ps IH]; intros t.
  - exists []. simpl. split; [now rewrite app_nil_r | reflexivity].
  - simpl. unfold result, wait, emit, mbind, proc_bind. simpl.
    destruct (worker_run (fn p) (args p)).
    + destruct (IH (t ++ [FutureResult (fn p) (args p)])%list) as (rest & E & F).
      exists (FutureResult (fn p) (args p) :: rest). split.
      * rewrite E. now rewrite <- app_assoc.
      * simpl. exact F.
    + exists [FutureResult (fn p) (args p)]. split; reflexivity.
    + exists [FutureResult (fn p) (args p)]. split; reflexivity.
  - simpl. apply IH.
Qed.

Variables working_dir pid_file : string.
Variable controller_config : Config.
Variables controller_version token host cacert : string.

#[local] Abbreviation run_start :=
  (start healthcheck_app register worker_run working_dir pid_file
     controller_config controller_version token host cacert []).

Definition registration_result : option registration :=
  register token controller_version ("https://" +:+ host)
    "agent/registration" cacert.

Definition launch_events : list event :=
  (startup_events host
   ++ [ManagerQueue action_queue; ManagerQueue platform_queue;
       Register token controller_version ("https://" +:+ host)
         "agent/registration" cacert registration_result]
   ++ match registration_result with
      | Some r => [ProcessSubmit
                     (Platform r controller_version ("wss://" +:+ host)
                        "agent/websocket" cacert) [platform_queue]]
      | None => []
      end
   ++ core_submissions controller_config)%list.

Lemma start_blocks_on_healthcheck :
  healthcheck_app host 8085 = RunsForever ->
  run_start = (Blocked, startup_events host).
Proof.
  intros H. step. rewrite H. reflexivity.
Qed.

Lemma forallb_wait_app r1 r2 :
  forallb is_wait_or_shutdown r1 = true ->
  forallb is_wait_or_shutdown r2 = true ->
  forallb is_wait_or_shutdown (r1 ++ r2) = true.
Proof. intros H1 H2. rewrite forallb_app, H1, H2. reflexivity. Qed.

Opaque wait_all.

Lemma start_launch_events :
  healthcheck_app host 8085 <> RunsForever ->
  exists rest,
    snd run_start = (launch_events ++ rest)%list /\
    forallb is_wait_or_shutdown rest = true.
Proof.
  intros H. unfold launch_events, registration_result.
  step.
  destruct (healthcheck_app host 8085) eqn:Hh; [| | contradiction]; simpl.
  all: destruct (register token controller_version ("https://" +:+ host)
              "agent/registration" cacert) as [r |]; simpl.
  all: match goal with
    | |- context [wait_all worker_run ?ps ?t] =>
        destruct (wait_all_trace ps t) as (rest & E & F);
        destruct (wait_all worker_run ps t) as [st tr]
    end.
  all: simpl in E; subst tr.
  all: destruct st; simpl.
  all: try match goal with
           | |- context [if ?b then _ else _] => destruct b
           end; simpl.
  all: first
         [ exists (rest ++ [ManagerShutdown; ProcessPoolShutdown])%list;
           split; [reflexivity | apply forallb_wait_app; [exact F | reflexivity]]
         | exists rest; split; [reflexivity | exact F] ].
Qed.

Transparent wait_all.


Lemma start_thread_submissions f :
  In (ThreadSubmit f) (snd run_start) -> f = healthcheck_run host 8085.
Proof.
  destruct (healthcheck_app host 8085) eqn:Hh.
  3: { rewrite (start_blocks_on_healthcheck Hh). simpl.
       intros [H | [H | [H | []]]]; try discriminate H.
       now injection H as <-. }
  all: destruct start_launch_events as (rest & E & F);
    [rewrite Hh; discriminate |].
  all: intros H; rewrite E, in_app_iff in H; destruct H as [H | H].
  all: try (rewrite forallb_forall in F; apply F in H; discriminate H).
  all: unfold launch_events in H; simpl in H.
  all: destruct H as [H | [H | [H | [H | [H | [H | H]]]]]]; try discriminate H.
  all: try (now injection H as <-).
  all: apply in_app_iff in H as [H | H];
    [destruct registration_result; simpl in H;
     [destruct H as [H | []]; discriminate H | destruct H]
    | simpl in H; destruct H as [H | [H | [H | []]]]; discriminate H].
Qed.



(** The first thing [start] does after naming the process is to hand the
    health-check server to the thread pool with the [host] argument of
    [start] and port 8085, and this is the only server it ever submits. *)
Lemma healthcheck_run_on_host_argument_and_8085 :
  (exists rest, snd run_start = (startup_events host ++ rest)%list) /\
  (forall f, In (ThreadSubmit f) (snd run_start) -> f = healthcheck_run host 8085).
Proof.
  split; [| apply start_thread_submissions].
  destruct (healthcheck_app host 8085) eqn:Hh.
  3: { exists []. rewrite (start_blocks_on_healthcheck Hh). reflexivity. }
  all: destruct start_launch_events as (rest & E & F);
    [rewrite Hh; discriminate |].
  all: rewrite E; unfold launch_events; rewrite <- app_assoc; eexists; reflexivity.
Qed.

End World.

(** ** A sample run *)

Definition sample_config : Config :=
  {| V1alpha1.Config.version := "v1alpha1";
     V1alpha1.Config.controller :=
       {| V1alpha1.Controller.databases :=
            {| V1alpha1.Databases.state :=
                 {| V1alpha1.State.type := "memory";
                    V1alpha1.State.collectionInterval := 60;
                    V1alpha1.State.connection := None |};
               V1alpha1.Databases.metrics :=
                 {| V1alpha1.Metrics.type := "memory";
                    V1alpha1.Metrics.collectionInterval := 10;
                    V1alpha1.Metrics.maxThreads := 4;
                    V1alpha1.Metrics.hostConnectionTimeout := 30;
                    V1alpha1.Metrics.trailing := 5;
                    V1alpha1.Metrics.connection := None |} |};
          V1alpha1.Controller.platform :=
            {| V1alpha1.Platform.domain := "app.premiscale.com";
               V1alpha1.Platform.token := "";
               V1alpha1.Platform.certificates :=
                 {| V1alpha1.Certificates.path := "/opt/premiscale/ca.pem" |};
               V1alpha1.Platform.actionsQueueMaxSize := 50 |};
          V1alpha1.Controller.reconciliation :=
            {| V1alpha1.Reconciliation.interval := 5 |};
          V1alpha1.Controller.autoscale :=
            {| V1alpha1.Autoscale.hosts := [];
               V1alpha1.Autoscale.groups := V1alpha1.AutoscalingGroups.object |};
          V1alpha1.Controller.healthcheck :=
            {| V1alpha1.Healthcheck.host := "0.0.0.0";
               V1alpha1.Healthcheck.port := 8080;
               V1alpha1.Healthcheck.path := "/healthz" |} |} |}.

(** A health-check server that serves until the process dies, and one that
    was stopped. *)
Definition serving (host : string) (port : Z) : run := RunsForever.
Definition stopped (host : string) (port : Z) : run := Finishes.

(** A platform that refuses the registration, and one that accepts it. *)
Definition refused (token version host path cacert : string)
    : option registration := None.
Definition accepted (token version host path cacert : string)
    : option registration := Some {| handle := "controller-1" |}.

(** Workers that run until the process dies, and workers that return. *)
Definition looping (w : worker) (a : list Queue) : run := RunsForever.
Definition returning (w : worker) (a : list Queue) : run := Finishes.

Definition sample_start healthcheck_app register worker_run
    : status Z * list event :=
  start healthcheck_app register worker_run
    "/opt/premiscale" "/opt/premiscale/premiscale.pid" sample_config
    "0.4.2" "registration-token" "app.premiscale.com"
    "/opt/premiscale/ca.pem" [].


(** C7 fails on the code.  The configuration asks for a health-check
    server on [0.0.0.0:8080]; [start] hands the server the platform host it
    was given and the fixed port 8085, and never reads the health-check
    section. *)
Theorem start_ignores_healthcheck_section :
  V1alpha1.Healthcheck.host (healthcheck_of sample_config) = "0.0.0.0" /\
  V1alpha1.Healthcheck.port (healthcheck_of sample_config) = 8080 /\
  In (ThreadSubmit (healthcheck_run "app.premiscale.com" 8085))
     (snd (sample_start serving accepted looping)) /\
  ~ In (ThreadSubmit (healthcheck_run "0.0.0.0" 8080))
       (snd (sample_start serving accepted looping)) /\
  ~ bound_to_healthcheck_section sample_config
      (snd (sample_start serving accepted looping)).
Proof.
  split; [reflexivity |]. split; [reflexivity |].
  split; [vm_compute; tauto |]. split.
  - vm_compute. intros H.
    repeat (destruct H as [H | H]; [discriminate H |]). exact H.
  - intros H.
    destruct (H "app.premiscale.com" 8085) as [Hhost _].
    + vm_compute. tauto.
    + discriminate Hhost.
Qed.

(** C8 fails on the code.  The health-check server is submitted inside a
    [with ThreadPoolExecutor()] block, and leaving that block joins the
    server's thread: with a server that keeps serving, [start] never gets
    past the block, creates no queue and submits no worker. *)
Theorem start_waits_for_healthcheck_server :
  sample_start serving accepted looping
  = (Blocked, startup_events "app.premiscale.com") /\
  (forall q, ~ In (ManagerQueue q) (snd (sample_start serving accepted looping))) /\
  (forall w a, ~ In (ProcessSubmit w a) (snd (sample_start serving accepted looping))).
Proof.
  assert (sample_start serving accepted looping
          = (Blocked, startup_events "app.premiscale.com")) as E.
  { unfold sample_start. apply start_blocks_on_healthcheck. reflexivity. }
  rewrite E. split; [reflexivity |].
  split; intros; simpl; intros [H | [H | [H | []]]]; discriminate H.
Qed.

End DaemonSpec.


(* ===================================================================== *)
(** * Further properties of the hypervisor connection                     *)
(* ===================================================================== *)

Module HypervisorMore.
Import Py Hypervisor HypervisorSpec.

Lemma ssh_target_is_not_tls_target h u a p : tls_target h a p <> ssh_target h u a p.
Proof.
unfold tls_target, ssh_target. intros H.
apply String.app_inj in H.
cbv [String.append] in H. discriminate H.
Qed.

(** X1.  The ssh connection string is built for exactly eight protocol
    values, the spellings of ["ssh"] in upper and lower case; every other
    protocol value gets the tls string. *)
Theorem ssh_target_exactly_for_spellings_of_ssh n a p protocol h u r res :
  (connection_string (__init__ n a p protocol h u r res) = ssh_target h u a p
   <-> In protocol ["ssh"; "ssH"; "sSh"; "sSH"; "Ssh"; "SsH"; "SSh"; "SSH"]) /\
  (connection_string (__init__ n a p protocol h u r res) = tls_target h a p
   <-> ~ In protocol ["ssh"; "ssH"; "sSh"; "sSH"; "Ssh"; "SsH"; "SSh"; "SSH"]).
Proof.
rewrite connection_string_init, <- lower_ssh.
destruct (String.eqb_spec (lower protocol) "ssh") as [E | E].
- split; [tauto |]. split; [| contradiction].
  intros H. symmetry in H. now apply ssh_target_is_not_tls_target in H.
- split; [| tauto]. split; [| contradiction].
  intros H. now apply ssh_target_is_not_tls_target in H.
Qed.


Section Binding.
Variable lv_open : string -> outcome virConnect.
Variable lv_openReadOnly : string -> outcome virConnect.
Variable virConnectClose : virConnect -> outcome unit.

#[local] Abbreviation attempt := (attempt lv_open lv_openReadOnly).
#[local] Abbreviation open := (open lv_open lv_openReadOnly).
#[local] Abbreviation close := (close virConnectClose).
#[local] Abbreviation with_ := (with_ lv_open lv_openReadOnly virConnectClose).

(** X2.  A successful [open] makes one call into the binding,
    [lv.openReadOnly] for a read-only object and [lv.open] otherwise, on the
    connection string; the "Connected to host" record is logged only in the
    second case, a read-only connection is opened silently. *)
Theorem open_logs_only_writable_connections s h :
  attempt (self_ s) = Return h ->
  trace (snd (open s))
  = (trace s
     ++ if readonly (self_ s)
        then [LvOpenReadOnly (connection_string (self_ s))]
        else [LvOpen (connection_string (self_ s));
              Log (LogRecord INFO ("Connected to host at "
                                   +:+ connection_string (self_ s)))])%list.
Proof.
intros H. rewrite (open_success _ _ s h H).
unfold opened, attempt_event, connected_log. cbn [snd trace].
destruct (readonly (self_ s)); reflexivity.
Qed.




(** X6.  An exception of the binding that is not a [libvirtError] passes
    through [open]: nothing is logged and the object is unchanged.  Under
    [with], the body does not run and [close] is not called. *)
Theorem other_exception_propagates (A : Type) (body : option Libvirt -> M state A) s e :
  attempt (self_ s) = Raise e ->
  (forall msg, e <> libvirtError msg) ->
  open s = (Raise e, {| self_ := self_ s;
                        trace := (trace s ++ [attempt_event (self_ s)])%list |}) /\
  with_ body s = (Raise e, {| self_ := self_ s;
                              trace := (trace s ++ [attempt_event (self_ s)])%list |}).
Proof.
intros H Hne. split.
- now apply open_other_exception.
- unfold Hypervisor.with_, __enter__.
  now rewrite (open_other_exception _ _ s e H Hne).
Qed.

(** X7.  Under [with], when the connection is refused the body still runs,
    with [None] for the connection; when the block is left, [close] logs that
    there is no connection to close and releases nothing, and the outcome of
    the block is the outcome of the body. *)
Theorem with_refused_connection_runs_body (A : Type)
    (body : option Libvirt -> M state A) s msg r s2 :
  _connection (self_ s) = None ->
  attempt (self_ s) = Raise (libvirtError msg) ->
  body None {| self_ := self_ s;
               trace := (trace s ++ [attempt_event (self_ s);
                                     failed_log (self_ s) msg])%list |}
  = (r, s2) ->
  self_ s2 = self_ s ->
  with_ body s
  = (r, {| self_ := self_ s2;
           trace := (trace s2 ++ [nothing_to_close_log])%list |}).
Proof.
intros Hnone H Hbody Hself.
unfold Hypervisor.with_, __enter__, __exit__.
rewrite (open_failure _ _ s msg H), Hbody.
rewrite close_not_held by (rewrite Hself; exact Hnone).
reflexivity.
Qed.

End Binding.


(** ** Sample runs *)

Definition h1 : virConnect := {| conn_id := 1 |}.

Definition crashing (uri : string) : outcome virConnect :=
  Raise (TypeError "open() argument 1 must be str").

(** A read-only object for the same host. *)
Definition kvm1_readonly : state :=
  {| self_ := __init__ "kvm-1" (ipv4 10 0 0 5) 22 "ssh" "qemu" (Some "admin")
                true None;
     trace := [] |}.

(** A body that only reports whether it was given a connection. *)
Definition probing_body (conn : option Libvirt) : M state bool :=
  ret (bool_decide (is_Some conn)).

Lemma open_logs_only_writable_connections_witness :
  trace (snd (Hypervisor.open accepting accepting kvm1_readonly))
  = [LvOpenReadOnly "qemu+ssh://admin@10.0.0.5:22/system"] /\
  trace (snd (Hypervisor.open accepting accepting kvm1))
  = [LvOpen "qemu+ssh://admin@10.0.0.5:22/system";
     Log (LogRecord INFO "Connected to host at qemu+ssh://admin@10.0.0.5:22/system")].
Proof.
split.
- rewrite (open_logs_only_writable_connections accepting accepting
             kvm1_readonly h1 eq_refl).
  reflexivity.
- rewrite (open_logs_only_writable_connections accepting accepting
             kvm1 h1 eq_refl).
  reflexivity.
Defined.




Lemma other_exception_propagates_witness :
  fst (Hypervisor.with_ crashing crashing releasing probing_body kvm1)
  = Raise (TypeError "open() argument 1 must be str") /\
  trace (snd (Hypervisor.with_ crashing crashing releasing probing_body kvm1))
  = [LvOpen "qemu+ssh://admin@10.0.0.5:22/system"].
Proof.
destruct (other_exception_propagates crashing crashing releasing bool
            probing_body kvm1
            (TypeError "open() argument 1 must be str") eq_refl) as [_ E].
- intros msg. discriminate.
- rewrite E. split; reflexivity.
Defined.

Lemma with_refused_connection_runs_body_witness :
  fst (Hypervisor.with_ refusing refusing libvirt_python probing_body kvm1)
  = Return false /\
  releases h1
    (trace (snd (Hypervisor.with_ refusing refusing libvirt_python
                   probing_body kvm1)))
  = 0%nat.
Proof.
rewrite (with_refused_connection_runs_body refusing refusing libvirt_python
           bool probing_body
           kvm1 "virConnectOpen() failed" (Return false)
           {| self_ := self_ kvm1;
              trace := [attempt_event (self_ kvm1);
                        failed_log (self_ kvm1) "virConnectOpen() failed"] |}
           eq_refl eq_refl eq_refl eq_refl).
split; reflexivity.
Defined.

End HypervisorMore.


(* ===================================================================== *)
(** * Further properties of the configuration classes                     *)
(* ===================================================================== *)

Module V1alpha1More.
Import Py V1alpha1 V1alpha1Spec.

(** The text that a scan has read and not yet decided on. *)
Definition pending (st : OsPath.scan) : string :=
  match st with
  | OsPath.Plain => ""
  | OsPath.Dollar => "$"
  | OsPath.Word name => "$" +:+ name
  | OsPath.Brace name => "${" +:+ name
  end.

(** With no variable set, a scan copies its input. *)
Lemma expand_from_empty_environ st path :
  OsPath.expand_from ∅ st path = pending st +:+ path.
Proof.
revert st. induction path as [| c rest IH]; intros st.
- destruct st; simpl; unfold OsPath.lookup_or; rewrite ?lookup_empty;
    now rewrite ?append_empty_r.
- assert (Hplain : (if OsPath.is_char c "$" then OsPath.expand_from ∅ OsPath.Dollar rest
                    else String c (OsPath.expand_from ∅ OsPath.Plain rest))
                   = String c rest).
  { destruct (OsPath.is_char c "$") eqn:Hc.
    - unfold OsPath.is_char in Hc. apply String.eqb_eq in Hc.
      injection Hc as ->. now rewrite IH.
    - now rewrite IH. }
  destruct st; simpl; rewrite ?Hplain.
  + reflexivity.
  + destruct (OsPath.is_word c) eqn:Hw; [now rewrite IH |].
    destruct (OsPath.is_char c "{") eqn:Hb; [| reflexivity].
    unfold OsPath.is_char in Hb. apply String.eqb_eq in Hb.
    injection Hb as ->. now rewrite IH.
  + destruct (OsPath.is_word c) eqn:Hw.
    * rewrite IH. simpl. now rewrite !append_assoc.
    * unfold OsPath.lookup_or. rewrite lookup_empty.
      now rewrite !append_assoc.
  + destruct (OsPath.is_char c "}") eqn:Hb.
    * unfold OsPath.is_char in Hb. apply String.eqb_eq in Hb.
      injection Hb as ->.
      unfold OsPath.lookup_or. rewrite lookup_empty, IH.
      simpl. now rewrite !append_assoc.
    * rewrite IH. simpl. now rewrite !append_assoc.
Qed.

Lemma expandvars_empty_environ path : OsPath.expandvars ∅ path = path.
Proof. unfold OsPath.expandvars. now rewrite expand_from_empty_environ. Qed.

(** A reference [$name] between text without dollar signs. *)
Lemma expandvars_dollar_name environ pre c name rest :
  all_chars not_dollar pre = true ->
  OsPath.is_word c = true ->
  all_chars OsPath.is_word name = true ->
  starts_with not_word rest = true ->
  all_chars not_dollar rest = true ->
  OsPath.expandvars environ (pre +:+ "$" +:+ String c name +:+ rest)
  = pre +:+ default ("$" +:+ String c name) (environ !! String c name) +:+ rest.
Proof.
intros Hpre Hc Hname Hrest Hplain. unfold OsPath.expandvars.
rewrite expand_plain_text by exact Hpre.
rewrite expand_dollar_name by assumption.
fold (OsPath.expandvars environ rest).
rewrite (expandvars_no_dollar environ rest Hplain).
unfold OsPath.lookup_or. now destruct (environ !! String c name).
Qed.

(** A reference [${name}] between text without dollar signs. *)
Lemma expandvars_dollar_brace environ pre name rest :
  all_chars not_dollar pre = true ->
  all_chars not_rbrace name = true ->
  all_chars not_dollar rest = true ->
  OsPath.expandvars environ (pre +:+ "${" +:+ name +:+ "}" +:+ rest)
  = pre +:+ default ("${" +:+ name +:+ "}") (environ !! name) +:+ rest.
Proof.
intros Hpre Hname Hplain. unfold OsPath.expandvars.
rewrite expand_plain_text by exact Hpre.
rewrite expand_dollar_brace by assumption.
fold (OsPath.expandvars environ rest).
rewrite (expandvars_no_dollar environ rest Hplain).
unfold OsPath.lookup_or. now destruct (environ !! name).
Qed.

(** X8.  A [Connection] whose four strings hold no dollar sign is
    constructed with exactly these strings, whatever the environment. *)
Theorem Connection_init_keeps_text_without_dollar
    environ url database username password l :
  all_chars not_dollar url = true ->
  all_chars not_dollar database = true ->
  all_chars not_dollar username = true ->
  all_chars not_dollar password = true ->
  Connection.__init__ environ url database
    {| DatabaseCredentials.username := username;
       DatabaseCredentials.password := password |} l
  = (Return {| Connection.url := url;
               Connection.database := database;
               Connection.credentials :=
                 {| DatabaseCredentials.username := username;
                    DatabaseCredentials.password := password |} |}, l).
Proof.
intros H1 H2 H3 H4. rewrite Connection_init_expands.
now rewrite !expandvars_no_dollar by assumption.
Qed.

(** X9.  With no environment variable set, a [Connection] is constructed
    with its four strings as written, whatever references they hold. *)
Theorem Connection_init_empty_environ url database username password l :
  Connection.__init__ ∅ url database
    {| DatabaseCredentials.username := username;
       DatabaseCredentials.password := password |} l
  = (Return {| Connection.url := url;
               Connection.database := database;
               Connection.credentials :=
                 {| DatabaseCredentials.username := username;
                    DatabaseCredentials.password := password |} |}, l).
Proof.
rewrite Connection_init_expands. now rewrite !expandvars_empty_environ.
Qed.

(** X10.  In the url of a [Connection], a reference [$NAME] (letters, digits
    and underscores, ended by another character or by the end of the text)
    is replaced by the value of the variable when it is set, and left as
    written when it is not.  The value is inserted as it is: references
    inside it are not expanded. *)
Theorem Connection_init_expands_named_reference
    environ pre c name rest database credentials l :
  all_chars not_dollar pre = true ->
  OsPath.is_word c = true ->
  all_chars OsPath.is_word name = true ->
  starts_with not_word rest = true ->
  all_chars not_dollar rest = true ->
  exists conn,
    Connection.__init__ environ (pre +:+ "$" +:+ String c name +:+ rest)
      database credentials l = (Return conn, l) /\
    Connection.url conn
    = pre +:+ default ("$" +:+ String c name) (environ !! String c name) +:+ rest.
Proof.
intros Hpre Hc Hname Hrest Hplain. destruct credentials as [username password].
rewrite Connection_init_expands. eexists. split; [reflexivity |].
cbn [Connection.url]. now apply expandvars_dollar_name.
Qed.

(** X11.  In the path of [Certificates], a reference [${NAME}], where the
    name is any text without a closing brace, is replaced by the value of
    the variable when it is set, and left as written when it is not. *)
Theorem Certificates_init_expands_braced_reference environ pre name rest l :
  all_chars not_dollar pre = true ->
  all_chars not_rbrace name = true ->
  all_chars not_dollar rest = true ->
  Certificates.__init__ environ (pre +:+ "${" +:+ name +:+ "}" +:+ rest) l
  = (Return {| Certificates.path :=
                 pre +:+ default ("${" +:+ name +:+ "}") (environ !! name)
                 +:+ rest |}, l).
Proof.
intros Hpre Hname Hplain. rewrite Certificates_init_expands.
now rewrite expandvars_dollar_brace.
Qed.



(** X13.  [Config.from_dict] returns for no document at all, the one
    defined version included: structuring the controller always reaches the
    construction of a [Platform], which raises. *)
Theorem from_dict_returns_for_no_document environ str_ int_ config l :
  (exists e l', Config.from_dict environ str_ int_ config l = (Raise e, l')) /\
  (forall c l', Config.from_dict environ str_ int_ config l <> (Return c, l')).
Proof.
destruct (from_dict_raises environ str_ int_ config l) as (e & l' & E).
split; [now exists e, l' |].
intros c l'' H. rewrite E in H. discriminate H.
Qed.

(** ** Sample constructions *)

Lemma Connection_init_keeps_text_without_dollar_witness :
  fst (Connection.__init__ sample_environ "postgres://db.local/db" "premiscale"
         {| DatabaseCredentials.username := "admin";
            DatabaseCredentials.password := "secret" |} [])
  = Return {| Connection.url := "postgres://db.local/db";
              Connection.database := "premiscale";
              Connection.credentials :=
                {| DatabaseCredentials.username := "admin";
                   DatabaseCredentials.password := "secret" |} |}.
Proof.
rewrite (Connection_init_keeps_text_without_dollar sample_environ
           "postgres://db.local/db" "premiscale" "admin" "secret" []
           eq_refl eq_refl eq_refl eq_refl).
reflexivity.
Defined.

Lemma Connection_init_expands_named_reference_witness :
  exists conn,
    Connection.__init__ sample_environ "postgres://$DB_HOST/db" "premiscale"
      {| DatabaseCredentials.username := "admin";
         DatabaseCredentials.password := "secret" |} []
    = (Return conn, []) /\
    Connection.url conn = "postgres://metrics.local/db".
Proof.
exact (Connection_init_expands_named_reference sample_environ
         "postgres://" "D" "B_HOST" "/db" "premiscale"
         {| DatabaseCredentials.username := "admin";
            DatabaseCredentials.password := "secret" |} []
         eq_refl eq_refl eq_refl eq_refl eq_refl).
Defined.

Lemma Certificates_init_expands_braced_reference_witness :
  Certificates.__init__ sample_environ "/etc/${DB_USER}/ca.pem" []
  = (Return {| Certificates.path := "/etc/premiscale/ca.pem" |}, []) /\
  Certificates.__init__ sample_environ "/etc/ssl/${UNSET}" []
  = (Return {| Certificates.path := "/etc/ssl/${UNSET}" |}, []).
Proof.
split.
- exact (Certificates_init_expands_braced_reference sample_environ
           "/etc/" "DB_USER" "/ca.pem" [] eq_refl eq_refl eq_refl).
- exact (Certificates_init_expands_braced_reference sample_environ
           "/etc/ssl/" "UNSET" "" [] eq_refl eq_refl eq_refl).
Defined.

End V1alpha1More.



(* ===================================================================== *)
(** * Further properties of the daemon's start function                   *)
(* ===================================================================== *)

Module DaemonMore.
Import Py Daemon DaemonSpec.

(** The calls that [start] hands to the process pool, in order. *)
Definition submitted (reg : option registration) (c : Config)
    (version host cacert : string) : list Future :=
  (match reg with
   | Some r => [{| fn := Platform r version ("wss://" +:+ host)
                           "agent/websocket" cacert;
                   args := [platform_queue] |}]
   | None => []
   end
   ++ [{| fn := ASG; args := [action_queue] |};
       {| fn := Metrics (controller_databases_metrics_connection c); args := [] |};
       {| fn := Reconcile (controller_databases_state_connection c)
                          (controller_databases_metrics_connection c);
          args := [action_queue; platform_queue] |}])%list.

(** Waiting for calls one after the other: the first that does not finish
    decides. *)
Fixpoint await (runs : list run) : status unit :=
  match runs with
  | [] => Continue tt
  | Finishes :: rest => await rest
  | Fails e :: _ => Raised e
  | RunsForever :: _ => Blocked
  end.

(** The status of [start] once the health-check thread has ended, from the
    behaviour of the submitted calls. *)
Definition start_status_of (runs : list run) : status Z :=
  if existsb runs_forever runs then Blocked
  else match await runs with
       | Continue _ => Continue 0
       | Raised e => Raised e
       | Blocked => Blocked
       end.

Section World.
Variable healthcheck_app : string -> Z -> run.
Variable register : string -> string -> string -> string -> string
                    -> option registration.
Variable worker_run : worker -> list Queue -> run.

Definition run_of (p : Future) : run := worker_run (fn p) (args p).

Lemma wait_all_status processes t :
  fst (wait_all worker_run processes t) = await (map run_of (omap id processes)).
Proof.
revert t. induction processes as [| [p |] ps IH]; intros t.
- reflexivity.
- simpl. unfold result, wait, emit, mbind, proc_bind, run_of. simpl.
  destruct (worker_run (fn p) (args p)); [apply IH | reflexivity | reflexivity].
- simpl. apply IH.
Qed.

Lemma no_submission_while_waiting rest :
  forallb is_wait_or_shutdown rest = true ->
  existsb (process_pending worker_run) rest = false.
Proof.
induction rest as [| e rest IH]; [reflexivity |].
simpl. intros H. apply andb_true_iff in H as [He Hrest].
rewrite (IH Hrest). destruct e; try discriminate He; reflexivity.
Qed.

Variables working_dir pid_file : string.
Variable controller_config : Config.
Variables controller_version token host cacert : string.

#[local] Abbreviation run_start :=
  (start healthcheck_app register worker_run working_dir pid_file
     controller_config controller_version token host cacert []).

#[local] Abbreviation registration :=
  (registration_result register controller_version token host cacert).

#[local] Abbreviation runs :=
  (map run_of (submitted registration controller_config controller_version
                 host cacert)).

Opaque wait_all.

Lemma start_status :
  healthcheck_app host 8085 <> RunsForever ->
  fst run_start = start_status_of runs.
Proof.
intros H. unfold registration_result, start_status_of, submitted.
unfold start, with_ThreadPoolExecutor, with_ProcessPoolExecutor_Manager,
  thread_submit, executor_submit, call_register, manager_Queue,
  emit, mbind, mret, proc_bind, proc_ret. simpl.
destruct (healthcheck_app host 8085) eqn:Hh; [| | contradiction]; simpl.
all: destruct (register token controller_version ("https://" +:+ host)
                 "agent/registration" cacert) as [r |]; simpl.
all: match goal with
     | |- context [wait_all worker_run ?ps ?t] =>
         pose proof (wait_all_status ps t) as S;
         destruct (wait_all_trace worker_run ps t) as (rest & E & F);
         destruct (wait_all worker_run ps t) as [st tr]
     end.
all: simpl in E, S; subst tr st.
all: apply no_submission_while_waiting in F.
all: unfold run_of, action_queue, platform_queue in *; simpl.
all: repeat match goal with
            | |- context [worker_run ?w ?a] => destruct (worker_run w a) eqn:?
            end.
all: simpl; rewrite ?F; reflexivity.
Qed.

Transparent wait_all.

(** X14.  Once the health-check thread has ended, [start] proceeds in a
    fixed order: it creates the action queue and the platform queue, calls
    [register] once with [https://<host>] and [agent/registration], submits
    the Platform Connector only if a registration came back (with
    [wss://<host>], [agent/websocket] and the platform queue), then submits
    the Action Executor, the Metrics Collector and the Reconciliation Engine;
    everything after that is waiting for results and shutting down. *)
Theorem start_launches_in_order :
  healthcheck_app host 8085 <> RunsForever ->
  exists rest,
    snd run_start
    = (launch_events register controller_config controller_version token host cacert
       ++ rest)%list /\
    forallb is_wait_or_shutdown rest = true.
Proof.
intros H.
exact (start_launch_events healthcheck_app register worker_run working_dir
         pid_file controller_config controller_version token host cacert H).
Qed.

(** X15.  A health-check server that fails, for instance because it cannot
    bind, does not stop the daemon: its exception stays in the future that
    nobody reads, and [start] goes on exactly as if the server had returned. *)
Theorem healthcheck_failure_is_ignored e :
  healthcheck_app host 8085 = Fails e ->
  run_start
  = start stopped register worker_run working_dir pid_file
      controller_config controller_version token host cacert [].
Proof.
intros H.
unfold start, with_ThreadPoolExecutor, thread_submit, emit, mbind, mret,
  proc_bind, proc_ret. simpl. rewrite H. reflexivity.
Qed.

(** X16.  Once the health-check thread has ended, what [start] does is
    decided by the submitted workers: it never returns while one of them
    keeps running; otherwise it raises the exception of the first worker, in
    submission order, that failed; otherwise it returns 0. *)
Theorem start_outcome_from_workers :
  healthcheck_app host 8085 <> RunsForever ->
  fst run_start = start_status_of runs.
Proof. exact start_status. Qed.

(** X17.  [start] does not return, and raises nothing, as long as one of the
    submitted workers keeps running, even when another worker has already
    failed. *)
Theorem start_blocks_while_a_worker_runs p :
  healthcheck_app host 8085 <> RunsForever ->
  In p (submitted registration controller_config controller_version host cacert) ->
  run_of p = RunsForever ->
  fst run_start = Blocked.
Proof.
intros H Hin Hp. rewrite (start_status H). unfold start_status_of.
assert (existsb runs_forever runs = true) as ->; [| reflexivity].
apply existsb_exists. exists (run_of p). split.
- now apply in_map.
- now rewrite Hp.
Qed.

(** X18.  [start] returns 0 exactly when the health-check thread has ended
    and every submitted worker has finished. *)
Theorem start_returns_0_iff_all_finish :
  fst run_start = Continue 0
  <-> healthcheck_app host 8085 <> RunsForever /\
      forall p, In p (submitted registration controller_config controller_version
                        host cacert) ->
                run_of p = Finishes.
Proof.
split.
- intros H0.
  destruct (healthcheck_app host 8085) eqn:Hh.
  3: { rewrite (start_blocks_on_healthcheck healthcheck_app register worker_run
                  working_dir pid_file controller_config controller_version
                  token host cacert Hh) in H0. discriminate H0. }
  all: split; [discriminate |].
  all: rewrite start_status in H0 by (rewrite Hh; discriminate).
  all: unfold start_status_of, submitted in *.
  all: destruct registration; cbn [map app await existsb] in *.
  all: intros p Hp; simpl in Hp.
  all: repeat match type of H0 with
              | context [run_of ?q] => destruct (run_of q) eqn:?; simpl in H0
              end; try discriminate H0.
  all: repeat destruct Hp as [<- | Hp]; try assumption; destruct Hp.
- intros [Hh Hall]. rewrite (start_status Hh).
  unfold start_status_of, submitted in *.
  destruct registration; cbn [map app await existsb].
  all: rewrite !Hall by (simpl; tauto).
  all: reflexivity.
Qed.

End World.

(** ** Sample runs *)

(** A health-check server that cannot bind. *)
Definition failing_to_bind (host : string) (port : Z) : run :=
  Fails (ValueError "Address already in use").

(** Workers of which the Action Executor fails at once and the
    Reconciliation Engine keeps running. *)
Definition uneven (w : worker) (a : list Queue) : run :=
  match w with
  | ASG => Fails (ValueError "no hosts")
  | Reconcile _ _ => RunsForever
  | _ => Finishes
  end.

Lemma start_launches_in_order_witness :
  exists rest,
    snd (sample_start stopped accepted returning)
    = ([SetProcTitle "premiscale";
        ThreadSubmit (healthcheck_run "app.premiscale.com" 8085);
        ThreadPoolShutdown;
        ManagerQueue (QueueProxy 0);
        ManagerQueue (QueueProxy 1);
        Register "registration-token" "0.4.2" "https://app.premiscale.com"
          "agent/registration" "/opt/premiscale/ca.pem"
          (Some {| handle := "controller-1" |});
        ProcessSubmit (Platform {| handle := "controller-1" |} "0.4.2"
                         "wss://app.premiscale.com" "agent/websocket"
                         "/opt/premiscale/ca.pem") [QueueProxy 1];
        ProcessSubmit ASG [QueueProxy 0];
        ProcessSubmit (Metrics None) [];
        ProcessSubmit (Reconcile None None) [QueueProxy 0; QueueProxy 1]]
       ++ rest)%list /\
    forallb is_wait_or_shutdown rest = true.
Proof.
unfold sample_start.
apply (start_launches_in_order stopped accepted returning
         "/opt/premiscale" "/opt/premiscale/premiscale.pid" sample_config
         "0.4.2" "registration-token" "app.premiscale.com"
         "/opt/premiscale/ca.pem").
discriminate.
Defined.

Lemma healthcheck_failure_is_ignored_witness :
  sample_start failing_to_bind refused returning
  = sample_start stopped refused returning.
Proof.
unfold sample_start.
apply (healthcheck_failure_is_ignored failing_to_bind refused returning
         "/opt/premiscale" "/opt/premiscale/premiscale.pid" sample_config
         "0.4.2" "registration-token" "app.premiscale.com"
         "/opt/premiscale/ca.pem" (ValueError "Address already in use")).
reflexivity.
Defined.

Lemma start_outcome_from_workers_witness :
  fst (sample_start stopped refused uneven) = Blocked /\
  fst (sample_start stopped accepted returning) = Continue 0.
Proof.
unfold sample_start. split.
- rewrite (start_outcome_from_workers stopped refused uneven
             "/opt/premiscale" "/opt/premiscale/premiscale.pid" sample_config
             "0.4.2" "registration-token" "app.premiscale.com"
             "/opt/premiscale/ca.pem") by discriminate.
  reflexivity.
- rewrite (start_outcome_from_workers stopped accepted returning
             "/opt/premiscale" "/opt/premiscale/premiscale.pid" sample_config
             "0.4.2" "registration-token" "app.premiscale.com"
             "/opt/premiscale/ca.pem") by discriminate.
  reflexivity.
Defined.

Lemma start_blocks_while_a_worker_runs_witness :
  fst (sample_start failing_to_bind accepted uneven) = Blocked.
Proof.
unfold sample_start.
apply (start_blocks_while_a_worker_runs failing_to_bind accepted uneven
         "/opt/premiscale" "/opt/premiscale/premiscale.pid" sample_config
         "0.4.2" "registration-token" "app.premiscale.com"
         "/opt/premiscale/ca.pem"
         {| fn := Reconcile None None;
            args := [action_queue; platform_queue] |}).
- discriminate.
- simpl. tauto.
- reflexivity.
Defined.

End DaemonMore.
